(** * Magnet controller of the TOEI prober system

    A shallow embedding of [magnet_toei_prober/controller/__init__.py]:
    the two records, the [Controller] dataclass with its calibration
    polynomials, the start-up field check, the measuring accessor, the
    output setter with its voltage ramp, and the activity log.

    Conventions of the model.
    - Python floats are read as exact rationals ([Q]); the rounding of
      IEEE doubles is outside the model.  Equality of computed numbers is
      therefore [Qeq] (written [==]).  Two places where doubles leave the
      rationals are modelled: the mean of no samples is nan ([None] in a
      measurement), and a float power beyond the range of doubles raises
      [OverflowError] ([py_pow], [H2V_py], [V2H_py]).  The setter itself
      is modelled on [H2V], that is for targets whose conversion
      returns.  The samples of a read are voltages of the configured
      input range; a mean so large that numpy's power of it is
      infinite is outside the model.
    - The collaborators the module calls but does not define are modelled
      by a [World]: the wall clock read by [datetime.datetime.now()], the
      nidaqmx driver, the console and the files reached by [open].
    - A Python exception keeps every side effect made before it was
      raised, so an operation returns a [result] together with the state
      it leaves behind. *)

From Stdlib Require Import ZArith QArith Qabs String DecimalString List Lia Lqa.
From stdpp Require Import gmap.
Import ListNotations.

Local Open Scope string_scope.
Local Open Scope Q_scope.

(** ** Numbers *)

(** [x < y] on Python numbers, as a test. *)
Definition Qltb (x y : Q) : bool :=
  (Qnum x * QDen y <? Qnum y * QDen x)%Z.

(** Python's [int(x)]: truncation toward zero. *)
Definition py_int (x : Q) : Z := Z.quot (Qnum x) (QDen x).

Fixpoint np_sum (data : list Q) : Q :=
  match data with
  | [] => 0
  | x :: rest => x + np_sum rest
  end.

(** [np.mean(data)].  numpy answers nan for an empty sequence: [None]. *)
Definition np_mean (data : list Q) : option Q :=
  match data with
  | [] => None
  | _ :: _ => Some (np_sum data / inject_Z (Z.of_nat (length data)))
  end.

(** [np.abs]; of nan it is nan. *)
Definition np_abs (x : option Q) : option Q := option_map Qabs x.

(** [x < y] where [x] may be nan: every comparison with nan is false. *)
Definition nan_lt (x : option Q) (y : Q) : bool :=
  match x with
  | Some q => Qltb q y
  | None => false
  end.

(** ** Exceptions and results *)

Inductive exn : Type :=
  | ValueError (msg : string)
  | DaqError                 (* nidaqmx.errors.DaqError *)
  | FileNotFoundError
  | PermissionError          (* any OSError that is not FileNotFoundError *)
  | AttributeError
  | OverflowError.

Inductive result (A : Type) : Type :=
  | Return (a : A)
  | Raise (e : exn).
Arguments Return {A} a.
Arguments Raise {A} e.

(** [y[-1] = stop] *)
Definition set_last (y : list Q) (stop : Q) : list Q :=
  match y with
  | [] => []
  | _ :: _ => (removelast y ++ [stop])%list
  end.

(** [str(n)] of a Python integer. *)
Definition py_str_int (n : Z) : string := NilZero.string_of_int (Z.to_int n).

(** The message of numpy for a negative number of samples. *)
Definition linspace_error (num : Z) : string :=
  "Number of samples, " ++ py_str_int num ++ ", must be non-negative.".

(** [np.linspace(start, stop, num)] with [endpoint=True], following
    numpy's [function_base.linspace]: [num] samples [i * step + start]
    with [step = (stop - start) / (num - 1)], the last one overwritten by
    [stop] when [num > 1]; a negative [num] is a [ValueError]. *)
Definition np_linspace (start stop : Q) (num : Z) : result (list Q) :=
  if (num <? 0)%Z then
    Raise (ValueError (linspace_error num))
  else
    let div := (num - 1)%Z in
    let delta := stop - start in
    let y := map (fun i => inject_Z (Z.of_nat i)) (seq 0 (Z.to_nat num)) in
    let y :=
      if (0 <? div)%Z then
        let step := delta / inject_Z div in
        if Qeq_bool step 0
        then map (fun i => i / inject_Z div * delta) y
        else map (fun i => i * step) y
      else map (fun i => i * delta) y in
    let y := map (fun v => v + start) y in
    Return (if (1 <? num)%Z then set_last y stop else y).

(** ** Records *)

Definition datetime := Z.

Module MagnetOutput.
Record t : Type := make
  { timestamp : datetime;
    field : Q;
    voltage : Q }.
End MagnetOutput.

(** A measurement; [None] in [field] and [hall_voltage] is nan. *)
Module MeasuredMagneticField.
Record t : Type := make
  { timestamp : datetime;
    field : option Q;
    hall_voltage : option Q }.
End MeasuredMagneticField.

(** A logged message: a literal, or an f-string with one number in it. *)
Inductive message : Type :=
  | Str (s : string)
  | FStr (before : string) (x : Q) (after : string).

(** [f"{datetime.datetime.now()}   {message}"] *)
Record log_line : Type := mk_line
  { stamp : datetime;
    text : message }.

(** The arguments of the dataclass constructor. *)
Record Config : Type :=
  { DAQ_ADDRESS : string;
    V_HALL_ADDRESS : string;
    V_OUT_ADDRESS : string;
    READ_SAMPLE_CLOCK : Z;
    READ_SAMPLE_NUM : Z;
    TIME_VOLTAGE_SWEEP : Q;
    WRITE_SAMPLE_CLOCK : Q;
    WRITE_ARRAY_LENGTH : Z;
    V_OUT_MAX : Q;
    V_OUT_MIN : Q;
    V_IN_MAX : Q;
    V_IN_MIN : Q;
    LOG_PATH : string;
    print_log : bool;
    save_log : bool }.

(** The defaults of the class body.  [WRITE_ARRAY_LENGTH] is computed
    there, once, from the default clock and sweep time. *)
Definition default_config : Config :=
  let time_voltage_sweep := 10e-3 in
  let write_sample_clock := 100e3 in
  {| DAQ_ADDRESS := "Dev1";
     V_HALL_ADDRESS := "ai0";
     V_OUT_ADDRESS := "ao0";
     READ_SAMPLE_CLOCK := 1000;
     READ_SAMPLE_NUM := 100;
     TIME_VOLTAGE_SWEEP := time_voltage_sweep;
     WRITE_SAMPLE_CLOCK := write_sample_clock;
     WRITE_ARRAY_LENGTH := py_int (write_sample_clock * time_voltage_sweep);
     V_OUT_MAX := 10.0;
     V_OUT_MIN := -10.0;
     V_IN_MAX := 10.0;
     V_IN_MIN := -10.0;
     LOG_PATH := "./magnet_controller.log";
     print_log := true;
     save_log := true |}.

Record Controller : Type :=
  { config :> Config;
    _log : gmap Z message;
    _output_field : option MagnetOutput.t;
    _measured_field : option MeasuredMagneticField.t }.

(** The object as the generated [__init__] leaves it, before
    [__post_init__] runs. *)
Definition init (cfg : Config) : Controller :=
  {| config := cfg;
     _log := ∅;
     _output_field := None;
     _measured_field := None |}.

(** ** The world around the controller *)

(** Calls into the nidaqmx driver; [task] is the handle of the task the
    call is made on. *)
Inductive daq_call : Type :=
  | Task_new
  | add_ai_voltage_chan (task : nat) (chan : string) (min_val max_val : Q)
  | add_ao_voltage_chan (task : nat) (chan : string) (min_val max_val : Q)
  | cfg_samp_clk_timing (task : nat) (rate : Q)
  | task_read (task : nat) (number_of_samples_per_channel : Z)
  | task_write (task : nat) (samples : list Q) (auto_start : bool)
  | wait_until_done (task : nat)
  | task_stop (task : nat)
  | task_close (task : nat).

(** What [open] finds at a path. *)
Inductive path_state : Type :=
  | NoSuchDir                       (* a directory of the path is missing *)
  | NoFile (creatable : bool)       (* the directory is there, the file is not *)
  | File (writable : bool) (content : list log_line).

Inductive open_mode : Type := mode_a | mode_w.

Record World : Type :=
  { clock : nat -> datetime;        (* the successive readings of now() *)
    ticks : nat;                    (* readings taken so far *)
    daq_raises : nat -> bool;       (* does driver call number k raise? *)
    daq_data : nat -> list Q;       (* the samples call number k reads *)
    daq_calls : list daq_call;      (* driver calls so far, newest first *)
    open_tasks : list nat;          (* tasks created and not yet closed *)
    stdout : list log_line;
    files : string -> path_state }.

Record State : Type :=
  { obj : Controller;               (* the object methods receive as self *)
    world : World }.

Definition M (A : Type) : Type := State -> result A * State.

Definition ret {A} (a : A) : M A := fun st => (Return a, st).

Definition raise {A} (e : exn) : M A := fun st => (Raise e, st).

Definition bind {A B} (c : M A) (k : A -> M B) : M B :=
  fun st =>
    match c st with
    | (Return a, st') => k a st'
    | (Raise e, st') => (Raise e, st')
    end.

(** [try: c  except FileNotFoundError: h] *)
Definition try_except_FileNotFoundError {A} (c h : M A) : M A :=
  fun st =>
    match c st with
    | (Raise FileNotFoundError, st') => h st'
    | r => r
    end.

Notation "'let!' x ':=' c 'in' k" := (bind c (fun x => k))
  (at level 10, x name, c at level 100, k at level 200).

Definition lift {A} (r : result A) : M A := fun st => (r, st).

Definition get_self : M Controller := fun st => (Return (obj st), st).

Definition set_self (f : Controller -> Controller) : M unit :=
  fun st => (Return tt, {| obj := f (obj st); world := world st |}).

Definition set_world (f : World -> World) : M unit :=
  fun st => (Return tt, {| obj := obj st; world := f (world st) |}).

(** [o.name] on a value that may be [None]. *)
Definition attr {A B} (o : option A) (name : A -> B) : M B :=
  match o with
  | Some a => ret (name a)
  | None => raise AttributeError
  end.

(** *** The clock *)

Definition tick (w : World) : World :=
  {| clock := clock w; ticks := S (ticks w);
     daq_raises := daq_raises w; daq_data := daq_data w;
     daq_calls := daq_calls w; open_tasks := open_tasks w;
     stdout := stdout w; files := files w |}.

(** [datetime.datetime.now()] *)
Definition datetime_now : M datetime :=
  fun st =>
    (Return (clock (world st) (ticks (world st))),
     {| obj := obj st; world := tick (world st) |}).

(** *** The driver *)

Definition record_call (c : daq_call) (opened : list nat) (w : World) : World :=
  {| clock := clock w; ticks := ticks w;
     daq_raises := daq_raises w; daq_data := daq_data w;
     daq_calls := c :: daq_calls w; open_tasks := opened;
     stdout := stdout w; files := files w |}.

(** The tasks open after call number [k] has succeeded. *)
Definition opened_after (k : nat) (c : daq_call) (opened : list nat) : list nat :=
  match c with
  | Task_new => k :: opened
  | task_close t => List.remove Nat.eq_dec t opened
  | _ => opened
  end.

(** One call into the driver.  It is call number [k], the count of the
    calls made before it; it raises when the driver says so, and then
    changes nothing but the history.  It answers [k], which serves as the
    handle of the task when the call is [Task_new]. *)
Definition nidaqmx (c : daq_call) : M nat :=
  fun st =>
    let w := world st in
    let k := length (daq_calls w) in
    if daq_raises w k then
      (Raise DaqError,
       {| obj := obj st; world := record_call c (open_tasks w) w |})
    else
      (Return k,
       {| obj := obj st;
          world := record_call c (opened_after k c (open_tasks w)) w |}).

(** [task.read(number_of_samples_per_channel=n)] *)
Definition read (task : nat) (n : Z) : M (list Q) :=
  let! k := nidaqmx (task_read task n) in
  fun st => (Return (daq_data (world st) k), st).

(** *** Console and files *)

Definition print (l : log_line) : M unit :=
  set_world (fun w =>
    {| clock := clock w; ticks := ticks w;
       daq_raises := daq_raises w; daq_data := daq_data w;
       daq_calls := daq_calls w; open_tasks := open_tasks w;
       stdout := (stdout w ++ [l])%list; files := files w |}).

Definition put_file (path : string) (s : path_state) (w : World) : World :=
  {| clock := clock w; ticks := ticks w;
     daq_raises := daq_raises w; daq_data := daq_data w;
     daq_calls := daq_calls w; open_tasks := open_tasks w;
     stdout := stdout w;
     files := fun p => if String.eqb p path then s else files w p |}.

(** [with open(path, mode) as f: f.write(line)].  Both modes create a
    missing file; mode a keeps what the file holds and mode w drops it.
    A missing directory is a [FileNotFoundError] in either mode, every
    other refusal a [PermissionError]. *)
Definition open_write (path : string) (mode : open_mode) (line : log_line)
  : M unit :=
  fun st =>
    let w := world st in
    match files w path with
    | NoSuchDir => (Raise FileNotFoundError, st)
    | NoFile creatable =>
        if creatable then
          (Return tt, {| obj := obj st; world := put_file path (File true [line]) w |})
        else (Raise PermissionError, st)
    | File writable content =>
        if writable then
          let content' :=
            match mode with
            | mode_a => (content ++ [line])%list
            | mode_w => [line]
            end in
          (Return tt, {| obj := obj st; world := put_file path (File true content') w |})
        else (Raise PermissionError, st)
    end.

(** ** The controller *)

Definition with_log (l : gmap Z message) (s : Controller) : Controller :=
  {| config := config s; _log := l;
     _output_field := _output_field s; _measured_field := _measured_field s |}.

Definition with_output_field (o : option MagnetOutput.t) (s : Controller)
  : Controller :=
  {| config := config s; _log := _log s;
     _output_field := o; _measured_field := _measured_field s |}.

Definition with_measured_field (m : option MeasuredMagneticField.t)
  (s : Controller) : Controller :=
  {| config := config s; _log := _log s;
     _output_field := _output_field s; _measured_field := m |}.

(** Convert target magnetic field (Oe) to output voltage (V). *)
Definition H2V (H : Q) : Q :=
  -0.01268 + 0.00281 * H + 3.02608e-10 * H^2 - 1.5036e-11 * H^3
  - 1.66895e-16 * H^4 + 3.15376e-18 * H^5.

(** Convert hall voltage (V) to magnetic field (Oe). *)
Definition V2H (V : Q) : Q :=
  -0.05665 + 260.16273 * V - 2.1979e-5 * V^2 + 0.01858 * V^3
  + 1.97225e-4 * V^4 - 2.33726e-4 * V^5.

(** The magnitude from which a double is infinite: [2^1024 - 2^970],
    half a step above the largest finite double. *)
Definition float_overflow : Q := inject_Z (2 ^ 1024 - 2 ^ 970).

(** [x ** n] on Python floats, [n] a positive literal: the power, and
    [OverflowError] when it is out of the range of doubles. *)
Definition py_pow (x : Q) (n : positive) : result Q :=
  if Qle_bool float_overflow (Qabs (x ^ Zpos n))
  then Raise OverflowError
  else Return (x ^ Zpos n).

Definition and_then {A B} (r : result A) (k : A -> result B) : result B :=
  match r with
  | Return a => k a
  | Raise e => Raise e
  end.

(** [H2V] as Python runs it on a float: the four powers are taken from
    left to right and the first one out of range raises. *)
Definition H2V_py (H : Q) : result Q :=
  and_then (py_pow H 2) (fun H2 =>
  and_then (py_pow H 3) (fun H3 =>
  and_then (py_pow H 4) (fun H4 =>
  and_then (py_pow H 5) (fun H5 =>
  Return (-0.01268 + 0.00281 * H + 3.02608e-10 * H2 - 1.5036e-11 * H3
          - 1.66895e-16 * H4 + 3.15376e-18 * H5))))).

(** [V2H] as Python runs it on a float. *)
Definition V2H_py (V : Q) : result Q :=
  and_then (py_pow V 2) (fun V2 =>
  and_then (py_pow V 3) (fun V3 =>
  and_then (py_pow V 4) (fun V4 =>
  and_then (py_pow V 5) (fun V5 =>
  Return (-0.05665 + 260.16273 * V - 2.1979e-5 * V2 + 0.01858 * V3
          + 1.97225e-4 * V4 - 2.33726e-4 * V5))))).

Definition log (msg : message) : M unit :=
  let! t := datetime_now in
  let! _ := set_self (fun s => with_log (<[t := msg]> (_log s)) s) in
  let! t' := datetime_now in
  let log_message := mk_line t' msg in
  let! self := get_self in
  let! _ := (if print_log self then print log_message else ret tt) in
  if save_log self then
    try_except_FileNotFoundError
      (open_write (LOG_PATH self) mode_a log_message)
      (open_write (LOG_PATH self) mode_w log_message)
  else ret tt.

(** Return measured magnetic field using hall sensor. *)
Definition measured_field : M (option MeasuredMagneticField.t) :=
  let! self := get_self in
  let! task := nidaqmx Task_new in
  let! _ := nidaqmx (add_ai_voltage_chan task
                       (DAQ_ADDRESS self ++ "/" ++ V_HALL_ADDRESS self)
                       (V_IN_MIN self) (V_IN_MAX self)) in
  let! _ := nidaqmx (cfg_samp_clk_timing task
                       (inject_Z (READ_SAMPLE_CLOCK self))) in
  let! data := read task (READ_SAMPLE_NUM self) in
  let! _ := nidaqmx (wait_until_done task) in
  let! _ := nidaqmx (task_stop task) in
  let! _ := nidaqmx (task_close task) in
  let V := np_mean data in
  let H := option_map V2H V in      (* V2H of nan is nan *)
  let! t := datetime_now in
  let! _ := set_self (with_measured_field
                        (Some (MeasuredMagneticField.make t H V))) in
  let! self := get_self in
  ret (_measured_field self).

(** Get magnetic field output. *)
Definition output_field : M (option MagnetOutput.t) :=
  let! self := get_self in
  ret (_output_field self).

(** Set magnetic field output. *)
Definition set_output_field (target_field : Q) : M unit :=
  let! self := get_self in
  let target_voltage := H2V target_field in
  if Qltb target_voltage (V_OUT_MAX self)
     && Qltb target_voltage (V_IN_MAX self) then
    let! task := nidaqmx Task_new in
    let! _ := nidaqmx (add_ao_voltage_chan task
                         (DAQ_ADDRESS self ++ "/" ++ V_OUT_ADDRESS self)
                         (V_OUT_MIN self) (V_OUT_MAX self)) in
    let! _ := nidaqmx (cfg_samp_clk_timing task (WRITE_SAMPLE_CLOCK self)) in
    let! current := output_field in
    let! v := attr current MagnetOutput.voltage in
    let! v_out := lift (np_linspace v target_voltage
                          (WRITE_ARRAY_LENGTH self)) in
    let! _ := nidaqmx (task_write task v_out true) in
    let! _ := nidaqmx (wait_until_done task) in
    let! _ := nidaqmx (task_stop task) in
    let! _ := nidaqmx (task_close task) in
    let! t := datetime_now in
    let! _ := set_self (with_output_field
                          (Some (MagnetOutput.make t target_field
                                   target_voltage))) in
    log (FStr "--- Magnetic field is set to " target_field " Oe. ---")
  else
    let! _ := log (Str "--- Output voltage is not valid. ---") in
    raise (ValueError "Output voltage is not valid.").

Definition __post_init__ : M unit :=
  let! current_field := measured_field in
  let! f := attr current_field MeasuredMagneticField.field in
  if nan_lt (np_abs f) 10 then
    let! _ := log (Str "--- Initializing. Magnetic field is zero. ---") in
    let! t := datetime_now in
    set_self (with_output_field (Some (MagnetOutput.make t 0 0)))
  else
    let! _ := log (Str "Initial magnetic field is not zero.") in
    raise (ValueError "Initial magnetic field is not zero.").

(** [Controller(...)]: the generated [__init__] stores the arguments and
    the three private defaults, then runs [__post_init__].  The caller
    receives the object only when the result is [Return]. *)
Definition construct (cfg : Config) (w : World) : result unit * State :=
  __post_init__ {| obj := init cfg; world := w |}.

(** ** The calibration, as the specification lists it *)

(** [c0 + c1*x + c2*x^2 + ...] *)
Fixpoint polynomial (coefficients : list Q) (x : Q) : Q :=
  match coefficients with
  | [] => 0
  | c :: rest => c + x * polynomial rest x
  end.

Definition H2V_coefficients : list Q :=
  [-0.01268; 0.00281; 3.02608e-10; -1.5036e-11; -1.66895e-16; 3.15376e-18].

Definition V2H_coefficients : list Q :=
  [-0.05665; 260.16273; -2.1979e-5; 0.01858; 1.97225e-4; -2.33726e-4].

(** ** Vocabulary of the statements *)

(** The next [n] driver calls all succeed. *)
Definition quiet (w : World) (n : nat) : Prop :=
  forall i, (i < n)%nat -> daq_raises w (i + length (daq_calls w)) = false.

(** Of the next driver calls, call [j] is the first to raise. *)
Definition first_failure (w : World) (j : nat) : Prop :=
  quiet w j /\ daq_raises w (j + length (daq_calls w)) = true.

(** The samples the next [measured_field] will read: its [read] is the
    fourth driver call it makes. *)
Definition next_samples (w : World) : list Q :=
  daq_data w (3 + length (daq_calls w)).

(** The log file accepts a line (or no file is kept). *)
Definition log_writable (st : State) : bool :=
  negb (save_log (obj st)) ||
  match files (world st) (LOG_PATH (obj st)) with
  | NoSuchDir => false
  | NoFile creatable => creatable
  | File writable _ => writable
  end.

(** What the log file holds; nothing when there is no file. *)
Definition file_content (w : World) (path : string) : list log_line :=
  match files w path with
  | File _ content => content
  | _ => []
  end.

(** The driver calls of one [measured_field], oldest first, on the task
    with handle [task]. *)
Definition read_session (self : Controller) (task : nat) : list daq_call :=
  [ Task_new;
    add_ai_voltage_chan task (DAQ_ADDRESS self ++ "/" ++ V_HALL_ADDRESS self)
      (V_IN_MIN self) (V_IN_MAX self);
    cfg_samp_clk_timing task (inject_Z (READ_SAMPLE_CLOCK self));
    task_read task (READ_SAMPLE_NUM self);
    wait_until_done task;
    task_stop task;
    task_close task ].

(** The driver calls of one successful ramp, oldest first. *)
Definition write_session (self : Controller) (task : nat) (ramp : list Q)
  : list daq_call :=
  [ Task_new;
    add_ao_voltage_chan task (DAQ_ADDRESS self ++ "/" ++ V_OUT_ADDRESS self)
      (V_OUT_MIN self) (V_OUT_MAX self);
    cfg_samp_clk_timing task (WRITE_SAMPLE_CLOCK self);
    task_write task ramp true;
    wait_until_done task;
    task_stop task;
    task_close task ].

(** The driver calls made so far, oldest first. *)
Definition history (w : World) : list daq_call := rev (daq_calls w).

Definition is_read (c : daq_call) : bool :=
  match c with task_read _ _ => true | _ => false end.

Definition is_write (c : daq_call) : bool :=
  match c with task_write _ _ _ => true | _ => false end.

(** The commanded voltage, when there is one, is below both maxima. *)
Definition below_maxima (s : Controller) : Prop :=
  match _output_field s with
  | Some o =>
      MagnetOutput.voltage o < V_OUT_MAX s /\
      MagnetOutput.voltage o < V_IN_MAX s
  | None => True
  end.

Definition voltage_valid (self : Controller) (target_field : Q) : Prop :=
  H2V target_field < V_OUT_MAX self /\ H2V target_field < V_IN_MAX self.

(** The public operations a caller can apply to a constructed
    controller. *)
Inductive operation : Type :=
  | op_measured_field
  | op_output_field
  | op_set_output_field (target_field : Q)
  | op_H2V (H : Q)
  | op_V2H (V : Q)
  | op_log (msg : message).

Definition discard {A} (c : M A) : State -> result unit * State :=
  fun st =>
    match c st with
    | (Return _, st') => (Return tt, st')
    | (Raise e, st') => (Raise e, st')
    end.

Definition run (o : operation) : State -> result unit * State :=
  match o with
  | op_measured_field => discard measured_field
  | op_output_field => discard output_field
  | op_set_output_field x => set_output_field x
  | op_H2V H => discard (ret (H2V H))
  | op_V2H V => discard (ret (V2H V))
  | op_log msg => log msg
  end.

(** The states of a controller built with [cfg]: a successful
    construction, then operations, whether they return or raise. *)
Inductive reachable (cfg : Config) : State -> Prop :=
  | reach_construct w st :
      construct cfg w = (Return tt, st) -> reachable cfg st
  | reach_run o st :
      reachable cfg st -> reachable cfg (snd (run o st)).

(** ** Sample worlds *)

(** A bench where the driver never raises and every read delivers
    [samples]; the clock counts its readings; every path is in state
    [fs]. *)
Definition bench (samples : list Q) (fs : path_state) : World :=
  {| clock := fun k => Z.of_nat k; ticks := 0;
     daq_raises := fun _ => false; daq_data := fun _ => samples;
     daq_calls := []; open_tasks := [];
     stdout := []; files := fun _ => fs |}.

(** The same bench with driver call number [k] raising. *)
Definition faulty_bench (k : nat) (samples : list Q) (fs : path_state)
  : World :=
  {| clock := fun k => Z.of_nat k; ticks := 0;
     daq_raises := fun i => Nat.eqb i k; daq_data := fun _ => samples;
     daq_calls := []; open_tasks := [];
     stdout := []; files := fun _ => fs |}.

Definition with_WRITE_SAMPLE_CLOCK (rate : Q) (c : Config) : Config :=
  {| DAQ_ADDRESS := DAQ_ADDRESS c; V_HALL_ADDRESS := V_HALL_ADDRESS c;
     V_OUT_ADDRESS := V_OUT_ADDRESS c;
     READ_SAMPLE_CLOCK := READ_SAMPLE_CLOCK c;
     READ_SAMPLE_NUM := READ_SAMPLE_NUM c;
     TIME_VOLTAGE_SWEEP := TIME_VOLTAGE_SWEEP c;
     WRITE_SAMPLE_CLOCK := rate;
     WRITE_ARRAY_LENGTH := WRITE_ARRAY_LENGTH c;
     V_OUT_MAX := V_OUT_MAX c; V_OUT_MIN := V_OUT_MIN c;
     V_IN_MAX := V_IN_MAX c; V_IN_MIN := V_IN_MIN c;
     LOG_PATH := LOG_PATH c; print_log := print_log c;
     save_log := save_log c |}.

Definition with_WRITE_ARRAY_LENGTH (n : Z) (c : Config) : Config :=
  {| DAQ_ADDRESS := DAQ_ADDRESS c; V_HALL_ADDRESS := V_HALL_ADDRESS c;
     V_OUT_ADDRESS := V_OUT_ADDRESS c;
     READ_SAMPLE_CLOCK := READ_SAMPLE_CLOCK c;
     READ_SAMPLE_NUM := READ_SAMPLE_NUM c;
     TIME_VOLTAGE_SWEEP := TIME_VOLTAGE_SWEEP c;
     WRITE_SAMPLE_CLOCK := WRITE_SAMPLE_CLOCK c;
     WRITE_ARRAY_LENGTH := n;
     V_OUT_MAX := V_OUT_MAX c; V_OUT_MIN := V_OUT_MIN c;
     V_IN_MAX := V_IN_MAX c; V_IN_MIN := V_IN_MIN c;
     LOG_PATH := LOG_PATH c; print_log := print_log c;
     save_log := save_log c |}.

Definition with_V_OUT_MAX (v : Q) (c : Config) : Config :=
  {| DAQ_ADDRESS := DAQ_ADDRESS c; V_HALL_ADDRESS := V_HALL_ADDRESS c;
     V_OUT_ADDRESS := V_OUT_ADDRESS c;
     READ_SAMPLE_CLOCK := READ_SAMPLE_CLOCK c;
     READ_SAMPLE_NUM := READ_SAMPLE_NUM c;
     TIME_VOLTAGE_SWEEP := TIME_VOLTAGE_SWEEP c;
     WRITE_SAMPLE_CLOCK := WRITE_SAMPLE_CLOCK c;
     WRITE_ARRAY_LENGTH := WRITE_ARRAY_LENGTH c;
     V_OUT_MAX := v; V_OUT_MIN := V_OUT_MIN c;
     V_IN_MAX := V_IN_MAX c; V_IN_MIN := V_IN_MIN c;
     LOG_PATH := LOG_PATH c; print_log := print_log c;
     save_log := save_log c |}.

(** The record the next [measured_field] stores, when its driver calls
    succeed. *)
Definition measured (w : World) : MeasuredMagneticField.t :=
  MeasuredMagneticField.make (clock w (ticks w))
    (option_map V2H (np_mean (next_samples w))) (np_mean (next_samples w)).

(** The state a successful [measured_field] leaves. *)
Definition measured_state (st : State) : State :=
  let w := world st in
  let task := length (daq_calls w) in
  {| obj := with_measured_field (Some (measured w)) (obj st);
     world :=
       {| clock := clock w; ticks := S (ticks w);
          daq_raises := daq_raises w; daq_data := daq_data w;
          daq_calls := (rev (read_session (obj st) task) ++ daq_calls w)%list;
          open_tasks := List.remove Nat.eq_dec task (task :: open_tasks w);
          stdout := stdout w; files := files w |} |}.

(** The number of calls of a kind in a history. *)
Definition count_calls (kind : daq_call -> bool) (calls : list daq_call) : nat :=
  length (List.filter kind calls).

(** A controller on the bench, before [__post_init__]. *)
Definition fresh (cfg : Config) (w : World) : State :=
  {| obj := init cfg; world := w |}.

(** A controller on the bench that came through construction. *)
Definition started (cfg : Config) (w : World) : State :=
  snd (construct cfg w).

(** The state a successful ramp to [target_field] leaves when the log
    call that ends the setter begins. *)
Definition ramp_state (target_field : Q) (ramp : list Q) (st : State) : State :=
  let w := world st in
  let task := length (daq_calls w) in
  {| obj :=
       with_output_field
         (Some (MagnetOutput.make (clock w (ticks w)) target_field
                  (H2V target_field)))
         (obj st);
     world :=
       {| clock := clock w; ticks := S (ticks w);
          daq_raises := daq_raises w; daq_data := daq_data w;
          daq_calls :=
            (rev (write_session (obj st) task ramp) ++ daq_calls w)%list;
          open_tasks := List.remove Nat.eq_dec task (task :: open_tasks w);
          stdout := stdout w; files := files w |} |}.

(** The bound check of the setter. *)
Definition voltage_check (s : Controller) (target_field : Q) : bool :=
  Qltb (H2V target_field) (V_OUT_MAX s) && Qltb (H2V target_field) (V_IN_MAX s).

(** Sample [i] of a straight line of [num] samples from [start] to
    [stop]. *)
Definition ramp_point (start stop : Q) (num : Z) (i : nat) : Q :=
  start + inject_Z (Z.of_nat i) * ((stop - start) / inject_Z (num - 1)).

(** The error of the setter for a refused target. *)
Definition invalid_output_voltage : exn :=
  ValueError "Output voltage is not valid.".

(** The error of construction for a field that is not near zero. *)
Definition invalid_initial_state : exn :=
  ValueError "Initial magnetic field is not zero.".

(** The sample arrays written to the hardware, oldest first. *)
Fixpoint written_ramps (calls : list daq_call) : list (list Q) :=
  match calls with
  | [] => []
  | task_write _ samples _ :: rest => samples :: written_ramps rest
  | _ :: rest => written_ramps rest
  end.

(** [x] lies between [a] and [b], whichever is the larger. *)
Definition between (a b x : Q) : Prop :=
  (a <= x /\ x <= b) \/ (b <= x /\ x <= a).

(** The message the setter logs after a ramp. *)
Definition set_message (target_field : Q) : message :=
  FStr "--- Magnetic field is set to " target_field " Oe. ---".

(** A magnitude up to which the fifth power is in the range of doubles,
    and one from which it is not. *)
Definition in_range_bound : Q := inject_Z (10 ^ 61).

Definition out_of_range_bound : Q := inject_Z (10 ^ 62).

(** * Properties *)

(** ** Numbers *)

Lemma Qltb_lt (x y : Q) : Qltb x y = true <-> x < y.
Proof. unfold Qltb, Qlt. apply Z.ltb_lt. Qed.

Lemma Qltb_ge (x y : Q) : Qltb x y = false <-> y <= x.
Proof. unfold Qltb, Qle. apply Z.ltb_ge. Qed.

Lemma np_sum_app (xs ys : list Q) :
  np_sum (xs ++ ys) == np_sum xs + np_sum ys.
Proof.
  induction xs as [|x xs IH]; simpl.
  - ring.
  - rewrite IH. ring.
Qed.

(** [np_mean] is the arithmetic mean: times the count, it is the sum. *)
Lemma np_mean_spec (data : list Q) :
  data <> [] ->
  exists m, np_mean data = Some m /\
            m * inject_Z (Z.of_nat (length data)) == np_sum data.
Proof.
  intros Hne. destruct data as [|x rest]; [congruence|].
  eexists. split; [reflexivity|]. field.
  intros H. unfold Qeq in H. simpl in H. lia.
Qed.

Lemma np_mean_Some (data : list Q) (m : Q) :
  np_mean data = Some m -> data <> [].
Proof. intros H ->. discriminate H. Qed.

(** ** Running the code *)

Ltac exec :=
  cbv beta iota zeta delta
    [output_field bind ret raise lift get_self set_self set_world attr
     discard datetime_now nidaqmx read print open_write
     try_except_FileNotFoundError
     obj world tick record_call put_file opened_after init fresh
     with_log with_output_field with_measured_field
     clock ticks daq_raises daq_data daq_calls open_tasks stdout files
     config _log _output_field _measured_field];
  cbn [length Nat.add].

(** Instances of [quiet] for the next [n] calls, as rewriting rules. *)
Ltac calm H n :=
  let rec go i :=
    lazymatch i with
    | O => idtac
    | S ?j =>
        let Hj := fresh "Hcalm" in
        assert (Hj := H j ltac:(lia));
        cbn [Nat.add daq_raises daq_calls length world] in Hj;
        try rewrite Hj;
        go j
    end in
  go n.

Lemma quiet_le (w : World) (n m : nat) :
  (m <= n)%nat -> quiet w n -> quiet w m.
Proof. intros Hle H i Hi. apply H. lia. Qed.

(** ** The log *)

(** What a log call leaves untouched, and what it records. *)
Lemma log_frame (msg : message) (st : State) :
  let st' := snd (log msg st) in
  config (obj st') = config (obj st) /\
  _output_field (obj st') = _output_field (obj st) /\
  _measured_field (obj st') = _measured_field (obj st) /\
  _log (obj st') = <[clock (world st) (ticks (world st)) := msg]> (_log (obj st)) /\
  clock (world st') = clock (world st) /\
  ticks (world st') = S (S (ticks (world st))) /\
  daq_raises (world st') = daq_raises (world st) /\
  daq_data (world st') = daq_data (world st) /\
  daq_calls (world st') = daq_calls (world st) /\
  open_tasks (world st') = open_tasks (world st).
Proof.
  destruct st as [[cfg lg out meas] [clk tk dr dd calls opn con fs]].
  unfold log. exec.
  destruct (print_log cfg), (save_log cfg); exec;
    try (destruct (fs (LOG_PATH cfg)) as [|[]|[] c] eqn:Efs; exec;
         rewrite ?Efs; exec);
    repeat split; reflexivity.
Qed.

(** A log call returns, or raises one of the two file errors. *)
Lemma log_result (msg : message) (st : State) :
  fst (log msg st) = Return tt \/
  fst (log msg st) = Raise FileNotFoundError \/
  fst (log msg st) = Raise PermissionError.
Proof.
  destruct st as [[cfg lg out meas] [clk tk dr dd calls opn con fs]].
  unfold log. exec.
  destruct (print_log cfg), (save_log cfg); exec;
    try (destruct (fs (LOG_PATH cfg)) as [|[]|[] c] eqn:Efs; exec;
         rewrite ?Efs; exec);
    auto.
Qed.

Lemma log_returns (msg : message) (st : State) :
  log_writable st = true -> fst (log msg st) = Return tt.
Proof.
  destruct st as [[cfg lg out meas] [clk tk dr dd calls opn con fs]].
  unfold log, log_writable. exec.
  destruct (print_log cfg), (save_log cfg); exec;
    try (destruct (fs (LOG_PATH cfg)) as [|[]|[] c] eqn:Efs; exec;
         rewrite ?Efs; exec);
    simpl; intros H; try reflexivity; discriminate H.
Qed.

(** Whether the log file accepts a line depends on the configuration
    and the files only. *)
Lemma log_writable_ext (st st' : State) :
  config (obj st') = config (obj st) ->
  files (world st') = files (world st) ->
  log_writable st' = log_writable st.
Proof.
  unfold log_writable. intros Hc Hf.
  change (save_log (obj st')) with (save_log (config (obj st'))).
  change (LOG_PATH (obj st')) with (LOG_PATH (config (obj st'))).
  rewrite Hc, Hf. reflexivity.
Qed.

Lemma log_memory (msg : message) (st : State) :
  _log (obj (snd (log msg st))) !! clock (world st) (ticks (world st))
  = Some msg.
Proof.
  destruct (log_frame msg st) as (_ & _ & _ & Hlog & _).
  rewrite Hlog. apply lookup_insert_eq.
Qed.

(** What a log call does to the file at [LOG_PATH], state by state. *)
Lemma log_file (msg : message) (st : State) :
  save_log (obj st) = true ->
  let w := world st in
  let path := LOG_PATH (obj st) in
  let line := mk_line (clock w (S (ticks w))) msg in
  let r := fst (log msg st) in
  let w' := world (snd (log msg st)) in
  match files w path with
  | NoSuchDir => r = Raise FileNotFoundError /\ files w' path = NoSuchDir
  | NoFile true => r = Return tt /\ files w' path = File true [line]
  | NoFile false => r = Raise PermissionError /\ files w' path = NoFile false
  | File true c => r = Return tt /\ files w' path = File true (c ++ [line])
  | File false c => r = Raise PermissionError /\ files w' path = File false c
  end.
Proof.
  destruct st as [[cfg lg out meas] [clk tk dr dd calls opn con fs]].
  unfold log. exec. intros Hsave. rewrite Hsave.
  destruct (print_log cfg); exec;
    destruct (fs (LOG_PATH cfg)) as [|[]|[] c] eqn:Efs; exec;
    rewrite ?Efs; exec; cbn [fst snd]; exec;
    rewrite ?String.eqb_refl, ?Efs; split; reflexivity.
Qed.

Lemma log_file_unsaved (msg : message) (st : State) :
  save_log (obj st) = false ->
  fst (log msg st) = Return tt /\
  files (world (snd (log msg st))) = files (world st).
Proof.
  destruct st as [[cfg lg out meas] [clk tk dr dd calls opn con fs]].
  unfold log. exec. intros Hsave. rewrite Hsave.
  destruct (print_log cfg); exec; split; reflexivity.
Qed.

(** C8, as the code has it.  Every log call records the message in the
    in-memory log under the reading of the clock it takes first, and
    what the log file held is still there afterwards, at its head.
    With file saving on: a missing file in an existing directory that
    allows creating it is created by the append itself and holds the
    line, and the call returns; an existing writable file gains the
    line at its end; a file that may not be created or written makes
    the call raise [PermissionError] and is left as it was; when the
    append raises [FileNotFoundError], which is the case of a missing
    directory, the retry in write mode raises it too, the call raises
    and no file appears. *)
Theorem log_records_and_appends (msg : message) (st : State) :
  let w := world st in
  let path := LOG_PATH (obj st) in
  let line := mk_line (clock w (S (ticks w))) msg in
  let r := fst (log msg st) in
  let w' := world (snd (log msg st)) in
  _log (obj (snd (log msg st))) !! clock w (ticks w) = Some msg /\
  (exists added, file_content w' path = (file_content w path ++ added)%list) /\
  (save_log (obj st) = true -> files w path = NoFile true ->
   r = Return tt /\ files w' path = File true [line]) /\
  (save_log (obj st) = true -> forall c, files w path = File true c ->
   r = Return tt /\ files w' path = File true (c ++ [line])) /\
  (save_log (obj st) = true ->
   files w path = NoFile false \/ (exists c, files w path = File false c) ->
   r = Raise PermissionError /\ files w' path = files w path) /\
  (save_log (obj st) = true ->
   fst (open_write path mode_a line st) = Raise FileNotFoundError ->
   files w path = NoSuchDir /\
   fst (open_write path mode_w line st) = Raise FileNotFoundError /\
   r = Raise FileNotFoundError /\ files w' path = NoSuchDir).
Proof.
  intros w path line r w'. split; [apply log_memory|].
  split.
  - destruct (save_log (obj st)) eqn:Hsave.
    + pose proof (log_file msg st Hsave) as H. cbv zeta in H.
      fold w path line r w' in H. unfold file_content.
      destruct (files w path) as [|[]|[] c]; destruct H as [_ ->].
      * exists []. reflexivity.
      * exists [line]. reflexivity.
      * exists []. reflexivity.
      * exists [line]. reflexivity.
      * exists []. symmetry. apply app_nil_r.
    + destruct (log_file_unsaved msg st Hsave) as [_ Hf].
      exists []. unfold file_content, w'. rewrite Hf. symmetry. apply app_nil_r.
  - split; [|split; [|split]]; intros Hsave;
      pose proof (log_file msg st Hsave) as H; cbv zeta in H;
      fold w path line r w' in H.
    + intros E. rewrite E in H. exact H.
    + intros c E. rewrite E in H. exact H.
    + intros [E | [c E]]; rewrite E in H |- *; exact H.
    + intros E. unfold open_write in E |- *. fold w path in E |- *.
      destruct (files w path) as [|[]|[] c]; simpl in E; try congruence.
      destruct H as [Hr Hf]. repeat split; auto.
Qed.

(** The claim fails where the directory of the log file is missing: the
    append raises [FileNotFoundError], the file being missing, and the
    call raises it instead of creating the file. *)
Lemma log_raises_when_directory_missing :
  let st := fresh default_config (bench [] NoSuchDir) in
  let msg := Str "--- Output voltage is not valid. ---" in
  save_log (obj st) = true /\
  fst (open_write (LOG_PATH (obj st)) mode_a (mk_line 1%Z msg) st)
  = Raise FileNotFoundError /\
  fst (log msg st) = Raise FileNotFoundError /\
  files (world (snd (log msg st))) (LOG_PATH (obj st)) = NoSuchDir.
Proof. repeat split; reflexivity. Qed.

Lemma log_records_and_appends_witness :
  let msg := Str "--- Output voltage is not valid. ---" in
  let old := mk_line 0%Z (Str "--- Initializing. Magnetic field is zero. ---") in
  (let st := fresh default_config (bench [] (NoFile true)) in
   fst (log msg st) = Return tt /\
   files (world (snd (log msg st))) (LOG_PATH (obj st))
   = File true [mk_line 1%Z msg]) /\
  (let st := fresh default_config (bench [] (File true [old])) in
   fst (log msg st) = Return tt /\
   files (world (snd (log msg st))) (LOG_PATH (obj st))
   = File true [old; mk_line 1%Z msg]) /\
  (let st := fresh default_config (bench [] (NoFile false)) in
   fst (log msg st) = Raise PermissionError) /\
  (let st := fresh default_config (bench [] NoSuchDir) in
   fst (log msg st) = Raise FileNotFoundError /\
   files (world (snd (log msg st))) (LOG_PATH (obj st)) = NoSuchDir).
Proof.
  intros msg old. split; [|split; [|split]]; intros st.
  - apply (proj1 (proj2 (proj2 (log_records_and_appends msg st))));
      reflexivity.
  - apply (proj1 (proj2 (proj2 (proj2 (log_records_and_appends msg st))))
             eq_refl [old]).
    reflexivity.
  - apply (proj1 (proj2 (proj2 (proj2 (proj2
             (log_records_and_appends msg st)))))); [reflexivity|].
    left. reflexivity.
  - destruct (proj2 (proj2 (proj2 (proj2 (proj2
                (log_records_and_appends msg st))))))
      as (_ & _ & Hr & Hf); [reflexivity | reflexivity |].
    split; assumption.
Defined.

(** ** The measuring accessor *)

(** Run the code through the driver calls whose outcome is known. *)
Ltac drive :=
  repeat (exec;
          match goal with
          | H : _ = false |- _ => rewrite H
          | H : _ = true |- _ => rewrite H
          end);
  exec.

Lemma measured_field_quiet (st : State) :
  quiet (world st) 7 ->
  measured_field st = (Return (Some (measured (world st))), measured_state st).
Proof.
  destruct st as [[cfg lg out meas] [clk tk dr dd calls opn con fs]].
  intros H. calm H 7%nat. clear H.
  unfold measured_field. drive. reflexivity.
Qed.

(** A raising driver call ends [measured_field] with the task open. *)
Lemma measured_field_failure (st : State) (j : nat) :
  (1 <= j <= 6)%nat ->
  first_failure (world st) j ->
  fst (measured_field st) = Raise DaqError /\
  In (length (daq_calls (world st)))
     (open_tasks (world (snd (measured_field st)))).
Proof.
  destruct st as [[cfg lg out meas] [clk tk dr dd calls opn con fs]].
  intros Hj [Hq Hr].
  assert (Hcases : (j = 1 \/ j = 2 \/ j = 3 \/ j = 4 \/ j = 5 \/ j = 6)%nat)
    by lia.
  cbn [Nat.add daq_raises daq_calls length world] in Hr.
  destruct Hcases as [-> | [-> | [-> | [-> | [-> | ->]]]]];
    cbn [Nat.add] in Hr.
  - calm Hq 1%nat. clear Hq. unfold measured_field. drive.
    split; [reflexivity | left; reflexivity].
  - calm Hq 2%nat. clear Hq. unfold measured_field. drive.
    split; [reflexivity | left; reflexivity].
  - calm Hq 3%nat. clear Hq. unfold measured_field. drive.
    split; [reflexivity | left; reflexivity].
  - calm Hq 4%nat. clear Hq. unfold measured_field. drive.
    split; [reflexivity | left; reflexivity].
  - calm Hq 5%nat. clear Hq. unfold measured_field. drive.
    split; [reflexivity | left; reflexivity].
  - calm Hq 6%nat. clear Hq. unfold measured_field. drive.
    split; [reflexivity | left; reflexivity].
Qed.

Lemma history_measured_state (st : State) :
  history (world (measured_state st))
  = (history (world st)
     ++ read_session (obj st) (length (daq_calls (world st))))%list.
Proof.
  unfold history, measured_state. cbn [world daq_calls].
  rewrite rev_app_distr, rev_involutive. reflexivity.
Qed.


(** ** The ramp *)

Lemma set_last_snoc (l : list Q) (x stop : Q) :
  set_last (l ++ [x]) stop = (l ++ [stop])%list.
Proof.
  unfold set_last. destruct (l ++ [x])%list as [|h t] eqn:E.
  - destruct l; discriminate E.
  - rewrite <- E, removelast_last. reflexivity.
Qed.

Lemma set_last_length (y : list Q) (stop : Q) :
  length (set_last y stop) = length y.
Proof.
  destruct y as [|h t] using rev_ind; [reflexivity|].
  rewrite set_last_snoc, !length_app. reflexivity.
Qed.

Lemma np_linspace_negative (start stop : Q) (num : Z) :
  (num < 0)%Z ->
  np_linspace start stop num
  = Raise (ValueError (linspace_error num)).
Proof.
  intros H. unfold np_linspace.
  destruct (Z.ltb_spec num 0); [reflexivity | lia].
Qed.

Lemma np_linspace_length (start stop : Q) (num : Z) :
  (0 <= num)%Z ->
  exists ramp, np_linspace start stop num = Return ramp /\
               length ramp = Z.to_nat num.
Proof.
  intros H. unfold np_linspace.
  destruct (Z.ltb_spec num 0); [lia|].
  eexists. split; [reflexivity|].
  destruct (1 <? num)%Z; rewrite ?set_last_length;
    destruct (0 <? num - 1)%Z; try destruct (Qeq_bool _ 0);
    rewrite !length_map, length_seq; reflexivity.
Qed.

(** From two samples on, the ramp is the straight line from [start],
    with [stop] itself as last sample. *)
Lemma np_linspace_line (start stop : Q) (num : Z) :
  (2 <= num)%Z ->
  exists g,
    np_linspace start stop num
    = Return (map g (seq 0 (Z.to_nat (num - 1))) ++ [stop])%list /\
    forall i, g i == ramp_point start stop num i.
Proof.
  intros H. unfold np_linspace.
  destruct (Z.ltb_spec num 0); [lia|].
  destruct (Z.ltb_spec 0 (num - 1)); [|lia].
  destruct (Z.ltb_spec 1 num); [|lia].
  replace (Z.to_nat num) with (S (Z.to_nat (num - 1))) by lia.
  assert (Hdiv : ~ inject_Z (num - 1) == 0).
  { intros E. unfold Qeq in E. simpl in E. lia. }
  destruct (Qeq_bool ((stop - start) / inject_Z (num - 1)) 0).
  - exists (fun i => inject_Z (Z.of_nat i) / inject_Z (num - 1) * (stop - start)
                     + start).
    split.
    + rewrite !map_map, seq_S, map_app. cbn [map Nat.add].
      rewrite set_last_snoc. reflexivity.
    + intros i. unfold ramp_point. field. exact Hdiv.
  - exists (fun i => inject_Z (Z.of_nat i) * ((stop - start) / inject_Z (num - 1))
                     + start).
    split.
    + rewrite !map_map, seq_S, map_app. cbn [map Nat.add].
      rewrite set_last_snoc. reflexivity.
    + intros i. unfold ramp_point. ring.
Qed.

(** A ramp of at least one sample starts at [start]. *)
Lemma np_linspace_head (start stop : Q) (num : Z) :
  (1 <= num)%Z ->
  exists x rest, np_linspace start stop num = Return (x :: rest) /\ x == start.
Proof.
  intros H. destruct (Z.eq_dec num 1%Z) as [-> | Hne].
  - exists (inject_Z 0 * (stop - start) + start), []. split; [reflexivity|].
    ring.
  - destruct (np_linspace_line start stop num ltac:(lia)) as (g & -> & Hg).
    destruct (Z.to_nat (num - 1)) as [|m] eqn:E; [lia|].
    cbn [seq map app]. eexists _, _. split; [reflexivity|].
    rewrite Hg. unfold ramp_point. cbn [Z.of_nat]. ring.
Qed.

(** ** The output setter *)

Lemma voltage_check_valid (s : Controller) (target_field : Q) :
  voltage_check s target_field = true <-> voltage_valid s target_field.
Proof.
  unfold voltage_check, voltage_valid.
  rewrite andb_true_iff, !Qltb_lt. reflexivity.
Qed.

Lemma voltage_check_invalid (s : Controller) (target_field : Q) :
  voltage_check s target_field = false <-> ~ voltage_valid s target_field.
Proof.
  rewrite <- voltage_check_valid.
  destruct (voltage_check s target_field); split; congruence.
Qed.

(** A target that fails the check is logged, then refused. *)
Lemma set_output_field_invalid (target_field : Q) (st : State) :
  voltage_check (obj st) target_field = false ->
  set_output_field target_field st
  = (let! _ := log (Str "--- Output voltage is not valid. ---") in
     raise invalid_output_voltage) st.
Proof.
  destruct st as [[cfg lg out meas] [clk tk dr dd calls opn con fs]].
  unfold voltage_check, set_output_field. exec. intros H. rewrite H.
  reflexivity.
Qed.

(** A target that passes the check, on a quiet driver: the ramp is
    written, the output record replaced, and the log call ends the
    setter. *)
Lemma set_output_field_quiet (target_field : Q) (st : State) o ramp :
  _output_field (obj st) = Some o ->
  voltage_check (obj st) target_field = true ->
  np_linspace (MagnetOutput.voltage o) (H2V target_field)
    (WRITE_ARRAY_LENGTH (obj st)) = Return ramp ->
  quiet (world st) 7 ->
  set_output_field target_field st
  = log (FStr "--- Magnetic field is set to " target_field " Oe. ---")
      (ramp_state target_field ramp st).
Proof.
  destruct st as [[cfg lg out meas] [clk tk dr dd calls opn con fs]].
  unfold voltage_check, set_output_field. exec.
  intros -> Hcheck Hramp H. calm H 7%nat. clear H.
  rewrite Hcheck. clear Hcheck. drive. rewrite Hramp. drive.
  reflexivity.
Qed.

(** Replace a finished log call by its frame. *)
Ltac logged :=
  match goal with
  | |- context [log ?m ?s] =>
      let Hf := fresh "Hframe" in
      let Hr := fresh "Hres" in
      pose proof (log_frame m s) as Hf;
      pose proof (log_result m s) as Hr;
      cbv zeta in Hf;
      destruct (log m s) as [[[]|?e] ?s'];
      cbn [fst snd obj world config _log _output_field _measured_field
           clock ticks daq_raises daq_data daq_calls open_tasks] in Hf, Hr;
      destruct Hf as (Hcfg & Hout & Hmeas & Hlog & Hclk & Htk & Hdr & Hdd
                      & Hcalls & Hopen)
  end.

(** Whatever happens in the setter, the configuration stays, and the
    output record either stays or becomes the record of a target that
    passed the check; the invalid-voltage error is raised only for a
    target that failed it. *)
Lemma set_output_field_effect (target_field : Q) (st : State) :
  let r := fst (set_output_field target_field st) in
  let st' := snd (set_output_field target_field st) in
  config (obj st') = config (obj st) /\
  (_output_field (obj st') = _output_field (obj st) \/
   voltage_check (obj st) target_field = true /\
   exists t, _output_field (obj st')
             = Some (MagnetOutput.make t target_field (H2V target_field))) /\
  (r = Raise invalid_output_voltage ->
   voltage_check (obj st) target_field = false /\
   _output_field (obj st') = _output_field (obj st)).
Proof.
  destruct (voltage_check (obj st) target_field) eqn:Hcheck.
  - destruct st as [[cfg lg out meas] [clk tk dr dd calls opn con fs]].
    unfold voltage_check in Hcheck. cbn [obj config] in Hcheck.
    unfold set_output_field. exec. rewrite Hcheck.
    destruct (dr (length calls)) eqn:E0; exec;
      [repeat split; auto; discriminate|].
    destruct (dr (S (length calls))) eqn:E1; exec;
      [repeat split; auto; discriminate|].
    destruct (dr (S (S (length calls)))) eqn:E2; exec;
      [repeat split; auto; discriminate|].
    destruct out as [o|]; exec; [|repeat split; auto; discriminate].
    destruct (np_linspace _ _ _) as [ramp|e] eqn:Eramp; exec.
    + destruct (dr (S (S (S (length calls))))) eqn:E3; exec;
        [repeat split; auto; discriminate|].
      destruct (dr (S (S (S (S (length calls)))))) eqn:E4; exec;
        [repeat split; auto; discriminate|].
      destruct (dr (S (S (S (S (S (length calls))))))) eqn:E5; exec;
        [repeat split; auto; discriminate|].
      destruct (dr (S (S (S (S (S (S (length calls)))))))) eqn:E6; exec;
        [repeat split; auto; discriminate|].
      logged; cbn [fst snd].
      * split; [exact Hcfg|]. split; [|discriminate].
        right. split; [reflexivity|]. eexists. exact Hout.
      * split; [exact Hcfg|]. split.
        -- right. split; [reflexivity|]. eexists. exact Hout.
        -- unfold invalid_output_voltage. intros E.
           destruct Hres as [Hr | [Hr | Hr]]; congruence.
    + split; [reflexivity|]. split; [left; reflexivity|].
      cbn [fst]. intros E. exfalso.
      unfold np_linspace in Eramp.
      destruct (WRITE_ARRAY_LENGTH cfg <? 0)%Z; [|discriminate Eramp].
      injection Eramp as <-. discriminate E.
  - rewrite (set_output_field_invalid target_field st Hcheck).
    unfold bind. logged; cbn [fst snd raise].
    + split; [exact Hcfg|]. split; [left; exact Hout|].
      intros _. split; [reflexivity | exact Hout].
    + split; [exact Hcfg|]. split; [left; exact Hout|].
      intros _. split; [reflexivity | exact Hout].
Qed.

(** A conversion that returns gives the value of [H2V]. *)
Lemma H2V_py_Return (H v : Q) : H2V_py H = Return v -> v = H2V H.
Proof.
  unfold H2V_py, py_pow, and_then.
  destruct (Qle_bool _ _); [discriminate|].
  destruct (Qle_bool _ _); [discriminate|].
  destruct (Qle_bool _ _); [discriminate|].
  destruct (Qle_bool _ _); [discriminate|].
  intros E. injection E as <-. reflexivity.
Qed.




(** The minima are not looked at: a target whose voltage is far below
    the output minimum is accepted and ramped to. *)
Example voltage_below_minimum_accepted :
  let st := started default_config (bench [0] (NoFile true)) in
  H2V (-10000) < V_OUT_MIN (obj st) /\
  fst (set_output_field (-10000) st) = Return tt /\
  option_map MagnetOutput.field (_output_field (obj (snd (set_output_field (-10000) st))))
  = Some (-10000).
Proof. vm_compute. repeat split; reflexivity. Qed.

Lemma history_ramp_state (target_field : Q) (ramp : list Q) (st : State) :
  history (world (ramp_state target_field ramp st))
  = (history (world st)
     ++ write_session (obj st) (length (daq_calls (world st))) ramp)%list.
Proof.
  unfold history, ramp_state. cbn [world daq_calls].
  rewrite rev_app_distr, rev_involutive. reflexivity.
Qed.

Lemma written_ramps_app (xs ys : list daq_call) :
  written_ramps (xs ++ ys) = (written_ramps xs ++ written_ramps ys)%list.
Proof.
  induction xs as [|c xs IH]; [reflexivity|].
  destruct c; cbn [written_ramps app]; rewrite IH; reflexivity.
Qed.

(** The default ramp length is the class-body product, a thousand. *)
Lemma default_ramp_length :
  WRITE_ARRAY_LENGTH default_config
  = py_int (WRITE_SAMPLE_CLOCK default_config
            * TIME_VOLTAGE_SWEEP default_config) /\
  WRITE_ARRAY_LENGTH default_config = 1000%Z.
Proof. split; reflexivity. Qed.

(** C3, as the code has it.  The ramp length is the field
    [WRITE_ARRAY_LENGTH], which the class body sets to
    [int(WRITE_SAMPLE_CLOCK * TIME_VOLTAGE_SWEEP)] of the defaults, a
    thousand.  For a target that passes the check, on a controller with
    an output record, a quiet driver and a ramp length that is not
    negative, the setter makes one write session whose single write
    carries [WRITE_ARRAY_LENGTH] samples, whatever the two voltages;
    the samples before the last lie on the straight line from the
    current voltage towards the target, and from two samples on the
    first is the current voltage and the last is the target voltage;
    then [_output_field] is the record of the target field and its
    voltage, stamped with the time read after the session, and the
    setter returns when the log file can be written. *)
Theorem ramp_written :
  (WRITE_ARRAY_LENGTH default_config
   = py_int (WRITE_SAMPLE_CLOCK default_config
             * TIME_VOLTAGE_SWEEP default_config)) /\
  forall (target_field : Q) (st : State) (o : MagnetOutput.t),
    _output_field (obj st) = Some o ->
    voltage_valid (obj st) target_field ->
    quiet (world st) 7 ->
    (0 <= WRITE_ARRAY_LENGTH (obj st))%Z ->
    let N := WRITE_ARRAY_LENGTH (obj st) in
    let w := world st in
    let v := MagnetOutput.voltage o in
    let st' := snd (set_output_field target_field st) in
    exists ramp,
      history (world st')
      = (history w ++ write_session (obj st) (length (daq_calls w)) ramp)%list /\
      written_ramps (history (world st'))
      = (written_ramps (history w) ++ [ramp])%list /\
      length ramp = Z.to_nat N /\
      (forall i, (i < Z.to_nat N - 1)%nat ->
                 nth i ramp 0 == ramp_point v (H2V target_field) N i) /\
      ((2 <= N)%Z -> nth 0 ramp 0 == v /\ List.last ramp 0 = H2V target_field) /\
      _output_field (obj st')
      = Some (MagnetOutput.make (clock w (ticks w)) target_field
                (H2V target_field)) /\
      (log_writable st = true ->
       fst (set_output_field target_field st) = Return tt).
Proof.
  split; [reflexivity|].
  intros target_field st o Hout Hvalid Hquiet Hlen N w v st'.
  destruct (np_linspace_length v (H2V target_field) N Hlen)
    as (ramp & Hramp & Hsize).
  apply voltage_check_valid in Hvalid.
  pose proof (set_output_field_quiet target_field st o ramp Hout Hvalid
                Hramp Hquiet) as Heq.
  set (msg := FStr "--- Magnetic field is set to " target_field " Oe. ---")
    in Heq.
  set (st1 := ramp_state target_field ramp st) in Heq.
  destruct (log_frame msg st1)
    as (_ & Ho & _ & _ & _ & _ & _ & _ & Hcalls & _).
  exists ramp. subst st'. rewrite Heq.
  assert (Hhist : history (world (snd (log msg st1)))
                  = (history w
                     ++ write_session (obj st) (length (daq_calls w)) ramp)%list).
  { unfold history at 1. rewrite Hcalls.
    apply (history_ramp_state target_field ramp st). }
  split; [exact Hhist|].
  split; [rewrite Hhist, written_ramps_app; reflexivity|].
  split; [exact Hsize|].
  split; [|split; [|split]].
  - intros i Hi.
    destruct (np_linspace_line v (H2V target_field) N ltac:(lia))
      as (g & Hg & Hline).
    rewrite Hramp in Hg. injection Hg as ->.
    rewrite app_nth1 by (rewrite length_map, length_seq; lia).
    rewrite (nth_indep _ 0 (g 0%nat))
      by (rewrite length_map, length_seq; lia).
    rewrite map_nth, seq_nth by lia. apply Hline.
  - intros H2.
    destruct (np_linspace_line v (H2V target_field) N H2) as (g & Hg & Hline).
    rewrite Hramp in Hg. injection Hg as ->. split.
    + destruct (Z.to_nat (N - 1)) as [|m] eqn:E; [lia|].
      cbn [seq map app nth]. rewrite Hline. unfold ramp_point.
      cbn [Z.of_nat]. ring.
    + apply last_last.
  - rewrite Ho. reflexivity.
  - intros Hw. apply log_returns.
    rewrite (log_writable_ext st st1); [exact Hw | reflexivity | reflexivity].
Qed.

Lemma ramp_written_witness :
  let st := started default_config (bench [0] (NoFile true)) in
  exists ramp,
    written_ramps (history (world (snd (set_output_field 100 st)))) = [ramp] /\
    length ramp = 1000%nat /\
    nth 0 ramp 0 == 0 /\
    List.last ramp 0 = H2V 100 /\
    fst (set_output_field 100 st) = Return tt.
Proof.
  intros st.
  assert (Hout : _output_field (obj st) = Some (MagnetOutput.make 3%Z 0 0))
    by reflexivity.
  assert (Hvalid : voltage_valid (obj st) 100) by (split; reflexivity).
  assert (Hquiet : quiet (world st) 7) by (intros i _; reflexivity).
  assert (Hlen : (0 <= WRITE_ARRAY_LENGTH (obj st))%Z)
    by (vm_compute; discriminate).
  destruct (proj2 ramp_written 100 st _ Hout Hvalid Hquiet Hlen)
    as (ramp & _ & Hw & Hn & _ & Hends & _ & Hret).
  exists ramp. split; [exact Hw|]. split; [exact Hn|].
  destruct Hends as [Hfirst Hlast]; [vm_compute; discriminate|].
  split; [exact Hfirst|]. split; [exact Hlast|].
  apply Hret. reflexivity.
Defined.

(** The claim fails on two configurations.  With the sample clock
    doubled, [int(clock * sweep)] is 2000 and the ramp still has the
    1000 samples of the class body.  With a ramp length of one, which is
    [int(clock * sweep)] for a clock of 100, the single sample is the
    current voltage and the target voltage is not in the ramp. *)
Lemma ramp_length_and_endpoint_fail :
  (let cfg := with_WRITE_SAMPLE_CLOCK 200e3 default_config in
   let st := started cfg (bench [0] (NoFile true)) in
   fst (construct cfg (bench [0] (NoFile true))) = Return tt /\
   voltage_check (obj st) 100 = true /\
   fst (set_output_field 100 st) = Return tt /\
   py_int (WRITE_SAMPLE_CLOCK (obj st) * TIME_VOLTAGE_SWEEP (obj st)) = 2000%Z /\
   map (@length Q) (written_ramps (history (world (snd (set_output_field 100 st)))))
   = [1000%nat]) /\
  (let cfg := with_WRITE_SAMPLE_CLOCK 100
                (with_WRITE_ARRAY_LENGTH 1 default_config) in
   let st := started cfg (bench [0] (NoFile true)) in
   fst (construct cfg (bench [0] (NoFile true))) = Return tt /\
   voltage_check (obj st) 100 = true /\
   fst (set_output_field 100 st) = Return tt /\
   py_int (WRITE_SAMPLE_CLOCK (obj st) * TIME_VOLTAGE_SWEEP (obj st)) = 1%Z /\
   WRITE_ARRAY_LENGTH (obj st) = 1%Z /\
   map (map Qred) (written_ramps (history (world (snd (set_output_field 100 st)))))
   = [[0]] /\
   Qeq_bool (H2V 100) 0 = false).
Proof. vm_compute. repeat split; reflexivity. Qed.

(** ** Construction *)

(** Replace a finished log call by the state it leaves, field by field. *)
Ltac logged_state :=
  match goal with
  | |- context [log ?m ?s] =>
      let Hf := fresh "Hframe" in
      let Hr := fresh "Hres" in
      pose proof (log_frame m s) as Hf;
      pose proof (log_result m s) as Hr;
      cbv zeta in Hf;
      destruct (log m s)
        as [[[]|?e] [[?cfg' ?lg' ?out' ?meas']
                     [?clk' ?tk' ?dr' ?dd' ?calls' ?opn' ?con' ?fs']]];
      cbn [fst snd obj world config _log _output_field _measured_field
           clock ticks daq_raises daq_data daq_calls open_tasks
           measured_state fresh init with_measured_field] in Hf, Hr;
      destruct Hf as (-> & -> & -> & -> & -> & -> & -> & -> & -> & ->)
  end.

(** On a quiet driver, construction measures, then branches on the
    measured field. *)
Lemma construct_quiet (cfg : Config) (w : World) :
  quiet w 7 ->
  construct cfg w
  = (if nan_lt (np_abs (MeasuredMagneticField.field (measured w))) 10 then
       let! _ := log (Str "--- Initializing. Magnetic field is zero. ---") in
       let! t := datetime_now in
       set_self (with_output_field (Some (MagnetOutput.make t 0 0)))
     else
       let! _ := log (Str "Initial magnetic field is not zero.") in
       raise invalid_initial_state)
      (measured_state (fresh cfg w)).
Proof.
  intros H. unfold construct, __post_init__. unfold bind at 1.
  fold (fresh cfg w).
  rewrite (measured_field_quiet (fresh cfg w)) by exact H.
  reflexivity.
Qed.

Lemma count_calls_app (kind : daq_call -> bool) (xs ys : list daq_call) :
  count_calls kind (xs ++ ys) = (count_calls kind xs + count_calls kind ys)%nat.
Proof. unfold count_calls. rewrite List.filter_app, length_app. reflexivity. Qed.

(** The state construction leaves on a quiet driver, whichever way the
    field check goes and whatever the log file does. *)
Lemma construct_quiet_effect (cfg : Config) (w : World) :
  quiet w 7 ->
  let below := nan_lt (np_abs (MeasuredMagneticField.field (measured w))) 10 in
  let r := fst (construct cfg w) in
  let st' := snd (construct cfg w) in
  config (obj st') = cfg /\
  _measured_field (obj st') = Some (measured w) /\
  history (world st')
  = (history w ++ read_session (init cfg) (length (daq_calls w)))%list /\
  (below = true ->
   _log (obj st')
   = <[clock w (1 + ticks w)
       := Str "--- Initializing. Magnetic field is zero. ---"]> ∅ /\
   (r = Return tt /\
    _output_field (obj st')
    = Some (MagnetOutput.make (clock w (3 + ticks w)) 0 0) /\
    ticks (world st') = (4 + ticks w)%nat \/
    (r = Raise FileNotFoundError \/ r = Raise PermissionError) /\
    _output_field (obj st') = None)) /\
  (below = false ->
   _log (obj st')
   = <[clock w (1 + ticks w) := Str "Initial magnetic field is not zero."]> ∅ /\
   _output_field (obj st') = None /\
   (r = Raise invalid_initial_state \/
    r = Raise FileNotFoundError \/ r = Raise PermissionError)).
Proof.
  intros H below r st'. subst r st'. rewrite (construct_quiet cfg w H).
  fold below.
  assert (Hhist : forall calls',
             calls' = daq_calls (world (measured_state (fresh cfg w))) ->
             rev calls'
             = (history w ++ read_session (init cfg) (length (daq_calls w)))%list).
  { intros calls' ->. apply (history_measured_state (fresh cfg w)). }
  destruct below eqn:Hf.
  - unfold bind. logged_state; exec; cbn [fst snd]; exec;
      (split; [reflexivity|]); (split; [reflexivity|]);
      (split; [apply Hhist; reflexivity|]);
      (split; [intros _ | intros Hge; discriminate Hge]);
      (split; [reflexivity|]).
    + left. repeat split; reflexivity.
    + right. split; [|reflexivity].
      destruct Hres as [Hr | Hr]; [discriminate Hr | exact Hr].
  - unfold bind. logged_state; exec; cbn [fst snd]; exec;
      (split; [reflexivity|]); (split; [reflexivity|]);
      (split; [apply Hhist; reflexivity|]);
      (split; [intros Hlt; discriminate Hlt | intros _]);
      (split; [reflexivity|]); (split; [reflexivity|]).
    + left. reflexivity.
    + right. destruct Hres as [Hr | Hr]; [discriminate Hr | exact Hr].
Qed.

Lemma written_ramps_read_session (s : Controller) (task : nat) :
  written_ramps (read_session s task) = [].
Proof. reflexivity. Qed.



(** Whatever the driver does, [measured_field] leaves the configuration
    and the output record alone. *)
Lemma measured_field_frame (st : State) :
  config (obj (snd (measured_field st))) = config (obj st) /\
  _output_field (obj (snd (measured_field st))) = _output_field (obj st).
Proof.
  destruct st as [[cfg lg out meas] [clk tk dr dd calls opn con fs]].
  unfold measured_field. exec.
  destruct (dr (length calls)); exec; [split; reflexivity|].
  destruct (dr (S (length calls))); exec; [split; reflexivity|].
  destruct (dr (S (S (length calls)))); exec; [split; reflexivity|].
  destruct (dr (S (S (S (length calls))))); exec; [split; reflexivity|].
  destruct (dr (S (S (S (S (length calls)))))); exec; [split; reflexivity|].
  destruct (dr (S (S (S (S (S (length calls))))))); exec;
    [split; reflexivity|].
  destruct (dr (S (S (S (S (S (S (length calls)))))))); exec;
    split; reflexivity.
Qed.

(** [measured_field] returns only when its seven driver calls
    succeeded. *)
Lemma measured_field_Return (st : State) a :
  fst (measured_field st) = Return a -> quiet (world st) 7.
Proof.
  destruct st as [[cfg lg out meas] [clk tk dr dd calls opn con fs]].
  unfold measured_field. exec.
  destruct (dr (length calls)) eqn:E0; exec; [discriminate|].
  destruct (dr (S (length calls))) eqn:E1; exec; [discriminate|].
  destruct (dr (S (S (length calls)))) eqn:E2; exec; [discriminate|].
  destruct (dr (S (S (S (length calls))))) eqn:E3; exec; [discriminate|].
  destruct (dr (S (S (S (S (length calls)))))) eqn:E4; exec; [discriminate|].
  destruct (dr (S (S (S (S (S (length calls))))))) eqn:E5; exec;
    [discriminate|].
  destruct (dr (S (S (S (S (S (S (length calls)))))))) eqn:E6; exec;
    [discriminate|].
  intros _ i Hi. cbn [world daq_raises daq_calls].
  destruct i as [|[|[|[|[|[|[|i]]]]]]]; cbn [Nat.add]; try assumption; lia.
Qed.

(** A construction that returns went through the quiet path with a
    field below 10 Oe, and left the zero record. *)
Lemma construct_Return (cfg : Config) (w : World) (st : State) :
  construct cfg w = (Return tt, st) ->
  quiet w 7 /\
  config (obj st) = cfg /\
  _output_field (obj st) = Some (MagnetOutput.make (clock w (3 + ticks w)) 0 0).
Proof.
  intros E.
  assert (Hq : quiet w 7).
  { unfold construct, __post_init__ in E. unfold bind at 1 in E.
    destruct (measured_field _) as [[a|e] s1] eqn:Em; [|discriminate E].
    apply (measured_field_Return (fresh cfg w) a).
    unfold fresh. rewrite Em. reflexivity. }
  split; [exact Hq|].
  destruct (construct_quiet_effect cfg w Hq) as (Hc & _ & _ & Hlow & Hhigh).
  rewrite E in Hc, Hlow, Hhigh. cbn [fst snd] in Hc, Hlow, Hhigh.
  split; [exact Hc|].
  destruct (nan_lt (np_abs (MeasuredMagneticField.field (measured w))) 10)
    eqn:Hbelow.
  - destruct (Hlow eq_refl) as [_ [(_ & Ho & _) | [[He | He] _]]];
      [exact Ho | discriminate He | discriminate He].
  - destruct (Hhigh eq_refl) as (_ & _ & [He | [He | He]]); discriminate He.
Qed.

(** ** The bound on the commanded voltage *)

(** No operation touches the configuration, and every operation keeps
    the commanded voltage below both maxima. *)
Lemma run_keeps_below_maxima (o : operation) (st : State) :
  below_maxima (obj st) ->
  config (obj (snd (run o st))) = config (obj st) /\
  below_maxima (obj (snd (run o st))).
Proof.
  intros Hinv.
  assert (Hkeep : forall st' : State,
             config (obj st') = config (obj st) ->
             _output_field (obj st') = _output_field (obj st) ->
             config (obj st') = config (obj st) /\ below_maxima (obj st')).
  { intros st' Hc Ho. split; [exact Hc|].
    unfold below_maxima in *. rewrite Ho.
    change (V_OUT_MAX (obj st')) with (V_OUT_MAX (config (obj st'))).
    change (V_IN_MAX (obj st')) with (V_IN_MAX (config (obj st'))).
    rewrite Hc. exact Hinv. }
  destruct o as [| |target_field|H|V|msg]; cbn [run].
  - destruct (measured_field_frame st) as [Hc Ho].
    unfold discard. destruct (measured_field st) as [[a|e] s1];
      cbn [fst snd] in *; apply Hkeep; assumption.
  - apply Hkeep; reflexivity.
  - destruct (set_output_field_effect target_field st)
      as (Hc & [Ho | (Hcheck & t & Ho)] & _).
    + apply Hkeep; assumption.
    + split; [exact Hc|]. unfold below_maxima. rewrite Ho.
      cbn [MagnetOutput.voltage].
      apply voltage_check_valid in Hcheck. unfold voltage_valid in Hcheck.
      change (V_OUT_MAX (obj (snd (set_output_field target_field st))))
        with (V_OUT_MAX (config (obj (snd (set_output_field target_field st))))).
      change (V_IN_MAX (obj (snd (set_output_field target_field st))))
        with (V_IN_MAX (config (obj (snd (set_output_field target_field st))))).
      rewrite Hc. exact Hcheck.
  - apply Hkeep; reflexivity.
  - apply Hkeep; reflexivity.
  - destruct (log_frame msg st) as (Hc & Ho & _). apply Hkeep; assumption.
Qed.

(** C5, as the code has it.  For a configuration whose two maxima are
    positive, as the default 10 V are, every state reached by a
    successful construction followed by any operations has its
    commanded voltage strictly below the output maximum and the input
    maximum; and in any configuration every operation preserves that
    bound. *)
Theorem commanded_voltage_below_maxima (cfg : Config) :
  (0 < V_OUT_MAX cfg -> 0 < V_IN_MAX cfg ->
   forall st, reachable cfg st -> below_maxima (obj st)) /\
  (forall o st, below_maxima (obj st) -> below_maxima (obj (snd (run o st)))).
Proof.
  split.
  - intros Hout Hin st Hreach.
    assert (H : config (obj st) = cfg /\ below_maxima (obj st)).
    { induction Hreach as [w st E | o st Hreach [IHc IHb]].
      - destruct (construct_Return cfg w st E) as (_ & Hc & Ho).
        split; [exact Hc|]. unfold below_maxima. rewrite Ho.
        cbn [MagnetOutput.voltage].
        change (V_OUT_MAX (obj st)) with (V_OUT_MAX (config (obj st))).
        change (V_IN_MAX (obj st)) with (V_IN_MAX (config (obj st))).
        rewrite Hc. split; assumption.
      - destruct (run_keeps_below_maxima o st IHb) as [Hc Hb].
        split; [congruence | exact Hb]. }
    apply H.
  - intros o st Hinv. apply (run_keeps_below_maxima o st Hinv).
Qed.

(** A construction that returns gives a reachable state. *)
Lemma started_reachable (cfg : Config) (w : World) :
  fst (construct cfg w) = Return tt -> reachable cfg (started cfg w).
Proof.
  unfold started. destruct (construct cfg w) as [r s] eqn:E.
  cbn [fst snd]. intros ->. apply (reach_construct cfg w). exact E.
Qed.

Lemma commanded_voltage_below_maxima_witness :
  let st := started default_config (bench [0] (NoFile true)) in
  below_maxima (obj (snd (run (op_set_output_field 100) st))) /\
  below_maxima (obj (snd (run (op_set_output_field 10000) st))).
Proof.
  intros st.
  destruct (commanded_voltage_below_maxima default_config) as [Hreach Hstep].
  assert (Hst : reachable default_config st).
  { apply started_reachable. vm_compute. reflexivity. }
  split.
  - apply Hreach; [reflexivity | reflexivity |].
    apply reach_run. exact Hst.
  - apply Hstep. apply Hreach; [reflexivity | reflexivity | exact Hst].
Defined.

(** The claim fails for an output range that ends at 0 V: construction
    succeeds and records a commanded voltage of 0, which is not below
    the output maximum. *)
Lemma zero_record_not_below_zero_maximum :
  let cfg := with_V_OUT_MAX 0 default_config in
  let st := started cfg (bench [0] (NoFile true)) in
  reachable cfg st /\
  _output_field (obj st) = Some (MagnetOutput.make 3%Z 0 0) /\
  V_OUT_MAX (obj st) = 0 /\
  ~ below_maxima (obj st).
Proof.
  intros cfg st.
  assert (Ho : _output_field (obj st) = Some (MagnetOutput.make 3%Z 0 0))
    by (vm_compute; reflexivity).
  assert (Hm : V_OUT_MAX (obj st) = 0) by (vm_compute; reflexivity).
  split; [|split; [|split]].
  - apply started_reachable. vm_compute. reflexivity.
  - exact Ho.
  - exact Hm.
  - unfold below_maxima. rewrite Ho, Hm. cbn [MagnetOutput.voltage].
    intros [H _]. discriminate H.
Qed.

(** ** The calibration *)

(** The conversions give equal results on equal numbers. *)
Lemma H2V_compat (x y : Q) : x == y -> H2V x == H2V y.
Proof. intros E. unfold H2V. rewrite E. reflexivity. Qed.

Lemma V2H_compat (x y : Q) : x == y -> V2H x == V2H y.
Proof. intros E. unfold V2H. rewrite E. reflexivity. Qed.


Example H2V_at_1000 : Qred (H2V 1000) = 2785573473 # 1000000000.
Proof. vm_compute. reflexivity. Qed.

Lemma H2V_zero : H2V 0 == -0.01268.
Proof. unfold H2V. ring. Qed.

(** C9: [H2V 0] is -0.01268 and not 0.  So the record a successful
    construction leaves, of field 0 and voltage 0, does not have
    [voltage == H2V field]; and the first ramp written after
    construction, of at least one sample, starts at 0 V and not at
    [H2V 0]. *)
Theorem zero_record_off_calibration :
  H2V 0 == -0.01268 /\
  Qeq_bool (H2V 0) 0 = false /\
  forall cfg w st,
    construct cfg w = (Return tt, st) ->
    (exists o, _output_field (obj st) = Some o /\
               MagnetOutput.field o = 0 /\ MagnetOutput.voltage o = 0 /\
               ~ MagnetOutput.voltage o == H2V (MagnetOutput.field o)) /\
    forall target_field,
      voltage_valid (obj st) target_field ->
      quiet (world st) 7 ->
      (1 <= WRITE_ARRAY_LENGTH (obj st))%Z ->
      exists x rest,
        written_ramps (history (world (snd (set_output_field target_field st))))
        = (written_ramps (history (world st)) ++ [x :: rest])%list /\
        x == 0 /\ ~ x == H2V 0.
Proof.
  assert (Hnz : ~ 0 == H2V 0).
  { rewrite H2V_zero. intros E. discriminate E. }
  split; [exact H2V_zero|]. split; [reflexivity|].
  intros cfg w st E. destruct (construct_Return cfg w st E) as (_ & _ & Ho).
  split.
  - eexists. split; [exact Ho|]. cbn. repeat split. exact Hnz.
  - intros target_field Hvalid Hquiet Hlen.
    destruct (np_linspace_head 0 (H2V target_field)
                (WRITE_ARRAY_LENGTH (obj st)) Hlen) as (x & rest & Hramp & Hx).
    apply voltage_check_valid in Hvalid.
    pose proof (set_output_field_quiet target_field st _ (x :: rest) Ho Hvalid
                  Hramp Hquiet) as Heq.
    exists x, rest. rewrite Heq.
    destruct (log_frame (FStr "--- Magnetic field is set to " target_field
                           " Oe. ---")
                (ramp_state target_field (x :: rest) st))
      as (_ & _ & _ & _ & _ & _ & _ & _ & Hcalls & _).
    split.
    + unfold history at 1. rewrite Hcalls.
      change (rev (daq_calls (world (ramp_state target_field (x :: rest) st))))
        with (history (world (ramp_state target_field (x :: rest) st))).
      rewrite history_ramp_state, written_ramps_app. reflexivity.
    + split; [exact Hx|]. rewrite Hx. exact Hnz.
Qed.

Lemma zero_record_off_calibration_witness :
  let st := started default_config (bench [0] (NoFile true)) in
  exists x rest,
    written_ramps (history (world (snd (set_output_field 100 st))))
    = (written_ramps (history (world st)) ++ [x :: rest])%list /\
    x == 0 /\ ~ x == H2V 0.
Proof.
  intros st.
  destruct zero_record_off_calibration as (_ & _ & H).
  destruct (H default_config (bench [0] (NoFile true)) st) as [_ Hramp].
  { unfold st, started.
    destruct (construct default_config (bench [0] (NoFile true)))
      as [r s] eqn:E.
    assert (Hr : r = Return tt).
    { change r with (fst (r, s)). rewrite <- E. vm_compute. reflexivity. }
    rewrite Hr. reflexivity. }
  apply Hramp.
  - split; vm_compute; reflexivity.
  - intros i _. vm_compute. reflexivity.
  - vm_compute. discriminate.
Defined.

(** ** Hardware sessions *)

(** A raising driver call ends a valid [set_output_field] with the task
    open; so does an error between the driver calls. *)
Lemma set_output_field_failure (target_field : Q) (st : State) (j : nat) :
  voltage_check (obj st) target_field = true ->
  (1 <= j <= 6)%nat ->
  first_failure (world st) j ->
  (exists e, fst (set_output_field target_field st) = Raise e) /\
  In (length (daq_calls (world st)))
     (open_tasks (world (snd (set_output_field target_field st)))).
Proof.
  destruct st as [[cfg lg out meas] [clk tk dr dd calls opn con fs]].
  intros Hcheck Hj [Hq Hr].
  unfold voltage_check in Hcheck. cbn [obj config] in Hcheck.
  assert (Hcases : (j = 1 \/ j = 2 \/ j = 3 \/ j = 4 \/ j = 5 \/ j = 6)%nat)
    by lia.
  cbn [Nat.add daq_raises daq_calls length world] in Hr.
  unfold set_output_field. exec. rewrite Hcheck. clear Hcheck.
  destruct Hcases as [-> | [-> | Hcases]]; cbn [Nat.add] in Hr.
  - calm Hq 1%nat. clear Hq. drive.
    split; [eexists; reflexivity | left; reflexivity].
  - calm Hq 2%nat. clear Hq. drive.
    split; [eexists; reflexivity | left; reflexivity].
  - assert (Hq3 : quiet
                    {| clock := clk; ticks := tk; daq_raises := dr;
                       daq_data := dd; daq_calls := calls; open_tasks := opn;
                       stdout := con; files := fs |} 3).
    { apply (quiet_le _ j); [lia | exact Hq]. }
    calm Hq3 3%nat. clear Hq3. drive.
    destruct out as [o|]; exec;
      [|split; [eexists; reflexivity | left; reflexivity]].
    destruct (np_linspace _ _ _) as [ramp|e]; exec;
      [|split; [eexists; reflexivity | left; reflexivity]].
    destruct Hcases as [-> | [-> | [-> | ->]]]; cbn [Nat.add] in Hr.
    + drive. split; [eexists; reflexivity | left; reflexivity].
    + calm Hq 4%nat. clear Hq. drive.
      split; [eexists; reflexivity | left; reflexivity].
    + calm Hq 5%nat. clear Hq. drive.
      split; [eexists; reflexivity | left; reflexivity].
    + calm Hq 6%nat. clear Hq. drive.
      split; [eexists; reflexivity | left; reflexivity].
Qed.

Lemma closed_task_not_open (task : nat) (opened : list nat) :
  ~ In task (List.remove Nat.eq_dec task (task :: opened)).
Proof. apply remove_In. Qed.


(** * Further properties *)

(** ** The log, in full *)

(** The console and the files other than the log file. *)
Lemma log_console (msg : message) (st : State) :
  let w := world st in
  let w' := world (snd (log msg st)) in
  let line := mk_line (clock w (S (ticks w))) msg in
  stdout w' = (if print_log (obj st) then (stdout w ++ [line])%list
               else stdout w) /\
  (forall p, p <> LOG_PATH (obj st) -> files w' p = files w p).
Proof.
  destruct st as [[cfg lg out meas] [clk tk dr dd calls opn con fs]].
  unfold log. exec.
  destruct (print_log cfg), (save_log cfg); exec;
    try (destruct (fs (LOG_PATH cfg)) as [|[]|[] c] eqn:Efs; exec;
         rewrite ?Efs; exec);
    cbn [fst snd]; exec; (split; [reflexivity|]);
    intros p Hp; try reflexivity;
    destruct (String.eqb_spec p (LOG_PATH cfg)); congruence.
Qed.

Lemma log_raises (msg : message) (st : State) :
  log_writable st = false ->
  fst (log msg st) = Raise FileNotFoundError \/
  fst (log msg st) = Raise PermissionError.
Proof.
  intros Hw. unfold log_writable in Hw.
  destruct (save_log (obj st)) eqn:Hsave; [|discriminate Hw].
  pose proof (log_file msg st Hsave) as H. cbv zeta in H.
  cbn [negb orb] in Hw.
  destruct (files (world st) (LOG_PATH (obj st))) as [|[]|[] c];
    try discriminate Hw; destruct H as [-> _]; auto.
Qed.

(** X1: a log call returns exactly when no file is kept or the log
    file accepts a line; otherwise it raises [FileNotFoundError] or
    [PermissionError].  Either way the console shows the line when
    printing is on, before the error: the line carries the second
    reading of the clock, while the in-memory entry is keyed by the
    first.  When the call returns with file saving on, the file holds
    its old lines followed by that same line; files at other paths are
    never touched, and with file saving off no file is. *)
Theorem log_outcome (msg : message) (st : State) :
  let w := world st in
  let path := LOG_PATH (obj st) in
  let r := fst (log msg st) in
  let st' := snd (log msg st) in
  let line := mk_line (clock w (S (ticks w))) msg in
  (r = Return tt <-> log_writable st = true) /\
  (r = Return tt \/ r = Raise FileNotFoundError \/ r = Raise PermissionError) /\
  _log (obj st') = <[clock w (ticks w) := msg]> (_log (obj st)) /\
  stdout (world st')
  = (if print_log (obj st) then (stdout w ++ [line])%list else stdout w) /\
  (save_log (obj st) = true -> r = Return tt ->
   file_content (world st') path = (file_content w path ++ [line])%list) /\
  (forall p, p <> path -> files (world st') p = files w p) /\
  (save_log (obj st) = false -> files (world st') = files w).
Proof.
  intros w path r st' line.
  destruct (log_frame msg st) as (_ & _ & _ & Hlog & _).
  destruct (log_console msg st) as [Hout Hother].
  split; [|split; [apply log_result|split; [exact Hlog|split; [exact Hout|]]]].
  - split.
    + intros Hr. destruct (log_writable st) eqn:Hw; [reflexivity|].
      destruct (log_raises msg st Hw) as [E | E]; fold r in E; congruence.
    + apply log_returns.
  - split; [|split; [exact Hother|]].
    + intros Hsave Hr. pose proof (log_file msg st Hsave) as H.
      cbv zeta in H. fold w path r st' line in H. unfold file_content.
      destruct (files w path) as [|[]|[] c]; destruct H as [Hr' ->];
        try congruence; reflexivity.
    + intros Hsave. apply (log_file_unsaved msg st Hsave).
Qed.

Lemma log_outcome_witness :
  let msg := Str "--- Output voltage is not valid. ---" in
  (let st := fresh default_config (bench [] (File true [])) in
   fst (log msg st) = Return tt /\
   file_content (world (snd (log msg st))) (LOG_PATH (obj st))
   = [mk_line 1%Z msg]) /\
  (let st := fresh default_config (bench [] (File false [])) in
   fst (log msg st) <> Return tt /\
   stdout (world (snd (log msg st))) = [mk_line 1%Z msg]).
Proof.
  intros msg. split; intros st.
  - destruct (log_outcome msg st) as (Hiff & _ & _ & _ & Hfile & _).
    assert (Hr : fst (log msg st) = Return tt) by (apply Hiff; reflexivity).
    split; [exact Hr|]. apply (Hfile eq_refl Hr).
  - destruct (log_outcome msg st) as (Hiff & _ & _ & Hout & _).
    split; [|exact Hout].
    intros Hr. apply Hiff in Hr. discriminate Hr.
Defined.

(** X2: the in-memory log is a dictionary keyed by the clock reading.
    A log call leaves the entries at every other key as they were; it
    adds one entry when the reading is new and replaces the message
    when an entry with that reading exists, the size staying the same.
    So of two log calls that read the same time, only the message of
    the second remains. *)
Theorem log_memory_insert (m1 m2 : message) (st : State) :
  let w := world st in
  let t := clock w (ticks w) in
  let st1 := snd (log m1 st) in
  let st2 := snd (log m2 st1) in
  (forall k, k <> t -> _log (obj st1) !! k = _log (obj st) !! k) /\
  (_log (obj st) !! t = None ->
   size (_log (obj st1)) = S (size (_log (obj st)))) /\
  (is_Some (_log (obj st) !! t) ->
   size (_log (obj st1)) = size (_log (obj st))) /\
  (clock w (2 + ticks w) = t ->
   _log (obj st2) = <[t := m2]> (_log (obj st)) /\
   _log (obj st2) !! t = Some m2).
Proof.
  intros w t st1 st2.
  destruct (log_frame m1 st) as (_ & _ & _ & Hlog1 & Hclk1 & Htk1 & _).
  destruct (log_frame m2 st1) as (_ & _ & _ & Hlog2 & _).
  fold st1 in Hlog1, Hclk1, Htk1. fold st2 in Hlog2. fold w t in Hlog1.
  split; [|split; [|split]].
  - intros k Hk. rewrite Hlog1. apply lookup_insert_ne. congruence.
  - intros Hnone. rewrite Hlog1. apply map_size_insert_None. exact Hnone.
  - intros Hsome. rewrite Hlog1. apply map_size_insert_Some. exact Hsome.
  - intros Hsame. rewrite Hclk1, Htk1 in Hlog2. fold w in Hlog2.
    cbn [Nat.add] in Hsame. rewrite Hsame in Hlog2.
    rewrite Hlog2, Hlog1.
    split; [apply insert_insert_eq | apply lookup_insert_eq].
Qed.

Lemma log_memory_insert_witness :
  let st := {| obj := init default_config;
               world := {| clock := fun _ => 5%Z; ticks := 0;
                           daq_raises := fun _ => false;
                           daq_data := fun _ => [];
                           daq_calls := []; open_tasks := [];
                           stdout := []; files := fun _ => NoFile true |} |} in
  let m1 := Str "Initial magnetic field is not zero." in
  let m2 := Str "--- Output voltage is not valid. ---" in
  size (_log (obj (snd (log m1 st)))) = 1%nat /\
  _log (obj (snd (log m2 (snd (log m1 st))))) !! 5%Z = Some m2 /\
  size (_log (obj (snd (log m2 (snd (log m1 st)))))) = 1%nat.
Proof.
  intros st m1 m2.
  destruct (log_memory_insert m1 m2 st) as (_ & Hnew & _ & Hsame).
  destruct Hsame as [Heq Hlook]; [reflexivity|].
  split; [apply Hnew; reflexivity|].
  split; [exact Hlook|].
  rewrite Heq. reflexivity.
Defined.

(** ** The measuring accessor, in full *)

Lemma written_ramps_rev_cons (c : daq_call) (calls : list daq_call) :
  is_write c = false ->
  written_ramps (rev (c :: calls)) = written_ramps (rev calls).
Proof.
  intros Hc. cbn [rev]. rewrite written_ramps_app.
  destruct c; try discriminate Hc; cbn [written_ramps]; apply app_nil_r.
Qed.

(** What [measured_field] leaves untouched, on every path. *)
Lemma measured_field_untouched (st : State) :
  let r := fst (measured_field st) in
  let st' := snd (measured_field st) in
  config (obj st') = config (obj st) /\
  _log (obj st') = _log (obj st) /\
  _output_field (obj st') = _output_field (obj st) /\
  stdout (world st') = stdout (world st) /\
  files (world st') = files (world st) /\
  written_ramps (history (world st')) = written_ramps (history (world st)) /\
  (forall e, r = Raise e ->
   e = DaqError /\
   _measured_field (obj st') = _measured_field (obj st) /\
   ticks (world st') = ticks (world st)).
Proof.
  destruct st as [[cfg lg out meas] [clk tk dr dd calls opn con fs]].
  unfold measured_field, history. exec.
  destruct (dr (length calls)); exec; cbn [fst snd]; exec;
    [rewrite !written_ramps_rev_cons by reflexivity;
     repeat split; congruence|].
  destruct (dr (S (length calls))); exec; cbn [fst snd]; exec;
    [rewrite !written_ramps_rev_cons by reflexivity;
     repeat split; congruence|].
  destruct (dr (S (S (length calls)))); exec; cbn [fst snd]; exec;
    [rewrite !written_ramps_rev_cons by reflexivity;
     repeat split; congruence|].
  destruct (dr (S (S (S (length calls))))); exec; cbn [fst snd]; exec;
    [rewrite !written_ramps_rev_cons by reflexivity;
     repeat split; congruence|].
  destruct (dr (S (S (S (S (length calls)))))); exec; cbn [fst snd]; exec;
    [rewrite !written_ramps_rev_cons by reflexivity;
     repeat split; congruence|].
  destruct (dr (S (S (S (S (S (length calls))))))); exec; cbn [fst snd]; exec;
    [rewrite !written_ramps_rev_cons by reflexivity;
     repeat split; congruence|].
  destruct (dr (S (S (S (S (S (S (length calls)))))))); exec;
    cbn [fst snd]; exec;
    rewrite !written_ramps_rev_cons by reflexivity;
    repeat split; congruence.
Qed.

(** X3: [measured_field] only measures.  Whatever the driver does, it
    leaves the configuration, the in-memory log, the output record, the
    console and the files as they were and writes no samples to the
    hardware.  When a driver call raises, the error is [DaqError], no
    time is read and [_measured_field] keeps the previous
    measurement. *)
Theorem measured_field_only_measures (st : State) :
  let r := fst (measured_field st) in
  let st' := snd (measured_field st) in
  config (obj st') = config (obj st) /\
  _log (obj st') = _log (obj st) /\
  _output_field (obj st') = _output_field (obj st) /\
  stdout (world st') = stdout (world st) /\
  files (world st') = files (world st) /\
  written_ramps (history (world st')) = written_ramps (history (world st)) /\
  (forall e, r = Raise e ->
   e = DaqError /\
   _measured_field (obj st') = _measured_field (obj st) /\
   ticks (world st') = ticks (world st)).
Proof. exact (measured_field_untouched st). Qed.

Lemma measured_field_only_measures_witness :
  let st0 := started default_config (faulty_bench 10 [0] (NoFile true)) in
  let st := snd (measured_field st0) in
  fst (measured_field st0) = Raise DaqError /\
  _measured_field (obj st) = _measured_field (obj st0) /\
  ticks (world st) = ticks (world st0).
Proof.
  intros st0 st.
  destruct (measured_field_only_measures st0) as (_ & _ & _ & _ & _ & _ & H).
  assert (Hr : fst (measured_field st0) = Raise DaqError)
    by (vm_compute; reflexivity).
  destruct (H DaqError Hr) as (_ & Hm & Ht).
  split; [exact Hr|]. split; assumption.
Defined.

(** ** Construction on a failing driver *)

Lemma measured_field_raises (st : State) (j : nat) :
  (j <= 6)%nat -> first_failure (world st) j ->
  fst (measured_field st) = Raise DaqError.
Proof.
  intros Hj Hfail. destruct j as [|j].
  - destruct st as [[cfg lg out meas] [clk tk dr dd calls opn con fs]].
    destruct Hfail as [_ Hr].
    cbn [Nat.add daq_raises daq_calls length world] in Hr.
    unfold measured_field. drive. reflexivity.
  - apply (measured_field_failure st (S j)); [lia | exact Hfail].
Qed.

(** Construction on a driver that raises during the first read. *)
Lemma construct_on_failing_driver (cfg : Config) (w : World) (j : nat) :
  (j <= 6)%nat -> first_failure w j ->
  let st' := snd (construct cfg w) in
  fst (construct cfg w) = Raise DaqError /\
  obj st' = init cfg /\
  ticks (world st') = ticks w /\
  stdout (world st') = stdout w /\
  files (world st') = files w /\
  written_ramps (history (world st')) = written_ramps (history w).
Proof.
  intros Hj Hfail st'. subst st'.
  pose proof (measured_field_raises (fresh cfg w) j Hj Hfail) as Hr.
  destruct (measured_field_untouched (fresh cfg w))
    as (Hc & Hl & Ho & Hout & Hf & Hw & Herr).
  assert (E : construct cfg w
              = (Raise DaqError, snd (measured_field (fresh cfg w)))).
  { unfold construct, __post_init__. unfold bind at 1. fold (fresh cfg w).
    destruct (measured_field (fresh cfg w)) as [[a|e] s1];
      cbn [fst snd] in *; [discriminate Hr|].
    injection Hr as ->. reflexivity. }
  rewrite E. cbn [fst snd].
  destruct (Herr DaqError Hr) as (_ & Hm & Ht).
  split; [reflexivity|].
  split; [|split; [exact Ht|split; [exact Hout|split; [exact Hf|exact Hw]]]].
  destruct (obj (snd (measured_field (fresh cfg w)))) as [c1 l1 o1 m1].
  cbn [config _log _output_field _measured_field fresh init obj] in *.
  subst. reflexivity.
Qed.

(** X4: when a driver call of the first read raises, construction ends
    with that [DaqError] before anything else happens: nothing is
    logged, in memory, on the console or in a file, no time is read,
    and the object still has neither an output record nor a
    measurement. *)
Theorem construction_driver_failure (cfg : Config) (w : World) (j : nat) :
  (j <= 6)%nat -> first_failure w j ->
  let st' := snd (construct cfg w) in
  fst (construct cfg w) = Raise DaqError /\
  obj st' = init cfg /\
  ticks (world st') = ticks w /\
  stdout (world st') = stdout w /\
  files (world st') = files w /\
  written_ramps (history (world st')) = written_ramps (history w).
Proof. exact (construct_on_failing_driver cfg w j). Qed.

Lemma construction_driver_failure_witness :
  let w := faulty_bench 3 [0] (NoFile true) in
  fst (construct default_config w) = Raise DaqError /\
  obj (snd (construct default_config w)) = init default_config /\
  files (world (snd (construct default_config w))) = files w.
Proof.
  intros w.
  assert (Hfail : first_failure w 3).
  { split; [intros i Hi | reflexivity].
    destruct i as [|[|[|i]]]; [reflexivity | reflexivity | reflexivity | lia]. }
  destruct (construction_driver_failure default_config w 3 ltac:(lia) Hfail)
    as (Hr & Ho & _ & _ & Hf & _).
  repeat split; assumption.
Defined.

(** ** The ramp, in full *)

Lemma between_compat (a b x y : Q) : x == y -> between a b x -> between a b y.
Proof. unfold between. intros E. rewrite E. tauto. Qed.

Lemma between_start (a b : Q) : between a b a.
Proof.
  unfold between. destruct (Qlt_le_dec a b); [left | right]; lra.
Qed.

Lemma between_stop (a b : Q) : between a b b.
Proof.
  unfold between. destruct (Qlt_le_dec a b); [left | right]; lra.
Qed.

(** A point a fraction [t] of the way from [a] to [b]. *)
Lemma between_fraction (a b t : Q) :
  0 <= t -> t <= 1 -> between a b (a + t * (b - a)).
Proof.
  intros H0 H1. unfold between. destruct (Qlt_le_dec a b) as [Hab | Hba].
  - left.
    assert (P1 : 0 <= t * (b - a)) by (apply Qmult_le_0_compat; lra).
    assert (P2 : 0 <= (1 - t) * (b - a)) by (apply Qmult_le_0_compat; lra).
    split; lra.
  - right.
    assert (P1 : 0 <= t * (a - b)) by (apply Qmult_le_0_compat; lra).
    assert (P2 : 0 <= (1 - t) * (a - b)) by (apply Qmult_le_0_compat; lra).
    split; lra.
Qed.

Lemma inject_Z_of_nat_nonneg (i : nat) : 0 <= inject_Z (Z.of_nat i).
Proof. unfold Qle. simpl. lia. Qed.

Lemma ramp_point_between (start stop : Q) (num : Z) (i : nat) :
  (Z.of_nat i <= num - 1)%Z -> (2 <= num)%Z ->
  between start stop (ramp_point start stop num i).
Proof.
  intros Hi Hnum. unfold ramp_point.
  assert (Hpos : 0 < inject_Z (num - 1)).
  { unfold Qlt. simpl. lia. }
  apply (between_compat start stop
           (start + inject_Z (Z.of_nat i) / inject_Z (num - 1) * (stop - start))).
  - field. intros E. rewrite E in Hpos. apply (Qlt_irrefl 0 Hpos).
  - apply between_fraction.
    + apply Qle_shift_div_l; [exact Hpos|].
      rewrite Qmult_0_l. apply inject_Z_of_nat_nonneg.
    + apply Qle_shift_div_r; [exact Hpos|].
      rewrite Qmult_1_l. rewrite <- Zle_Qle. exact Hi.
Qed.

Lemma np_linspace_zero (start stop : Q) : np_linspace start stop 0 = Return [].
Proof. reflexivity. Qed.

Lemma np_linspace_one (start stop : Q) :
  np_linspace start stop 1 = Return [inject_Z 0 * (stop - start) + start].
Proof. reflexivity. Qed.

(** Every sample of a ramp lies between its two ends. *)
Lemma np_linspace_between (start stop : Q) (num : Z) (ramp : list Q) :
  np_linspace start stop num = Return ramp ->
  Forall (between start stop) ramp.
Proof.
  intros Hramp.
  destruct (Z.ltb_spec num 0) as [Hneg | Hnn].
  - rewrite (np_linspace_negative start stop num Hneg) in Hramp.
    discriminate Hramp.
  - destruct (Z.eq_dec num 0%Z) as [-> | H0].
    { rewrite np_linspace_zero in Hramp. injection Hramp as <-. constructor. }
    destruct (Z.eq_dec num 1%Z) as [-> | H1].
    { rewrite np_linspace_one in Hramp. injection Hramp as <-.
      constructor; [|constructor].
      apply (between_compat start stop start); [ring | apply between_start]. }
    destruct (np_linspace_line start stop num ltac:(lia)) as (g & Hg & Hline).
    rewrite Hramp in Hg. injection Hg as ->.
    apply Forall_app. split.
    + apply List.Forall_forall. intros x Hx.
      apply in_map_iff in Hx. destruct Hx as (i & <- & Hi).
      apply in_seq in Hi.
      apply (between_compat start stop (ramp_point start stop num i));
        [symmetry; apply Hline|].
      apply ramp_point_between; lia.
    + constructor; [apply between_stop | constructor].
Qed.

(** ** The output setter, in full *)

(** The state a ramp leaves, whatever the log call at its end does. *)
Lemma set_output_field_ramped (target_field : Q) (st : State) o ramp :
  _output_field (obj st) = Some o ->
  voltage_check (obj st) target_field = true ->
  np_linspace (MagnetOutput.voltage o) (H2V target_field)
    (WRITE_ARRAY_LENGTH (obj st)) = Return ramp ->
  quiet (world st) 7 ->
  let w := world st in
  let st' := snd (set_output_field target_field st) in
  fst (set_output_field target_field st)
  = fst (log (set_message target_field) (ramp_state target_field ramp st)) /\
  config (obj st') = config (obj st) /\
  _output_field (obj st')
  = Some (MagnetOutput.make (clock w (ticks w)) target_field
            (H2V target_field)) /\
  _measured_field (obj st') = _measured_field (obj st) /\
  _log (obj st')
  = <[clock w (S (ticks w)) := set_message target_field]> (_log (obj st)) /\
  daq_raises (world st') = daq_raises w /\
  daq_calls (world st')
  = (rev (write_session (obj st) (length (daq_calls w)) ramp)
     ++ daq_calls w)%list /\
  written_ramps (history (world st'))
  = (written_ramps (history w) ++ [ramp])%list.
Proof.
  intros Hout Hcheck Hramp Hq w st'. subst st'.
  rewrite (set_output_field_quiet target_field st o ramp Hout Hcheck Hramp Hq).
  fold (set_message target_field).
  destruct (log_frame (set_message target_field)
              (ramp_state target_field ramp st))
    as (Hc & Ho & Hm & Hl & _ & _ & Hdr & _ & Hcalls & _).
  split; [reflexivity|]. split; [exact Hc|]. split; [exact Ho|].
  split; [exact Hm|]. split; [exact Hl|]. split; [exact Hdr|].
  split; [exact Hcalls|].
  unfold history. rewrite Hcalls.
  change (rev (daq_calls (world (ramp_state target_field ramp st))))
    with (history (world (ramp_state target_field ramp st))).
  rewrite history_ramp_state, written_ramps_app. reflexivity.
Qed.

(** X5: the setter records the new output before it logs.  For a
    target that passes the check, on a driver whose calls succeed, with
    a log file that cannot be written the setter raises the file error
    of the log call, yet the ramp has been written to the hardware,
    [_output_field] holds the target and the message is in the
    in-memory log. *)
Theorem set_output_field_raises_after_ramp (target_field : Q) (st : State) o :
  _output_field (obj st) = Some o ->
  voltage_valid (obj st) target_field ->
  quiet (world st) 7 ->
  (0 <= WRITE_ARRAY_LENGTH (obj st))%Z ->
  log_writable st = false ->
  let w := world st in
  let r := fst (set_output_field target_field st) in
  let st' := snd (set_output_field target_field st) in
  (r = Raise FileNotFoundError \/ r = Raise PermissionError) /\
  _output_field (obj st')
  = Some (MagnetOutput.make (clock w (ticks w)) target_field
            (H2V target_field)) /\
  (exists ramp,
     written_ramps (history (world st'))
     = (written_ramps (history w) ++ [ramp])%list /\
     length ramp = Z.to_nat (WRITE_ARRAY_LENGTH (obj st))) /\
  _log (obj st') !! clock w (S (ticks w)) = Some (set_message target_field).
Proof.
  intros Hout Hvalid Hq Hlen Hw w r st'.
  destruct (np_linspace_length (MagnetOutput.voltage o) (H2V target_field)
              (WRITE_ARRAY_LENGTH (obj st)) Hlen) as (ramp & Hramp & Hsize).
  apply voltage_check_valid in Hvalid.
  destruct (set_output_field_ramped target_field st o ramp Hout Hvalid Hramp Hq)
    as (Hr & _ & Ho & _ & Hl & _ & _ & Hwr).
  fold w st' in Ho, Hl, Hwr. fold r in Hr.
  split; [|split; [exact Ho|split]].
  - rewrite Hr. apply log_raises.
    rewrite (log_writable_ext st (ramp_state target_field ramp st));
      [exact Hw | reflexivity | reflexivity].
  - exists ramp. split; assumption.
  - rewrite Hl. apply lookup_insert_eq.
Qed.

Lemma set_output_field_raises_after_ramp_witness :
  let st := started default_config (bench [0] (NoFile true)) in
  let locked := {| obj := obj st;
                   world := put_file (LOG_PATH (obj st)) (File false [])
                              (world st) |} in
  fst (set_output_field 100 locked) = Raise PermissionError /\
  option_map MagnetOutput.field
    (_output_field (obj (snd (set_output_field 100 locked)))) = Some 100.
Proof.
  intros st locked.
  assert (Hout : _output_field (obj locked) = Some (MagnetOutput.make 3%Z 0 0))
    by (vm_compute; reflexivity).
  assert (Hvalid : voltage_valid (obj locked) 100)
    by (split; vm_compute; reflexivity).
  assert (Hq : quiet (world locked) 7)
    by (intros i _; vm_compute; reflexivity).
  assert (Hlen : (0 <= WRITE_ARRAY_LENGTH (obj locked))%Z)
    by (vm_compute; discriminate).
  assert (Hw : log_writable locked = false) by (vm_compute; reflexivity).
  destruct (set_output_field_raises_after_ramp 100 locked _ Hout Hvalid Hq
              Hlen Hw) as (Hr & Ho & _).
  split.
  - destruct Hr as [Hr | Hr]; [|exact Hr].
    exfalso. vm_compute in Hr. discriminate Hr.
  - rewrite Ho. reflexivity.
Defined.

Lemma between_below (a b x M : Q) :
  between a b x -> a < M -> b < M -> x < M.
Proof. unfold between. intros [[_ H] | [_ H]] Ha Hb; lra. Qed.

(** X6: no sample of a ramp overshoots.  For a target that passes the
    check, on a driver whose calls succeed, every sample the setter
    writes lies between the current commanded voltage and the target
    voltage; so when the current voltage is below both maxima, every
    sample written is below both maxima too. *)
Theorem ramp_stays_between_ends (target_field : Q) (st : State) o :
  _output_field (obj st) = Some o ->
  voltage_valid (obj st) target_field ->
  quiet (world st) 7 ->
  (0 <= WRITE_ARRAY_LENGTH (obj st))%Z ->
  exists ramp,
    written_ramps (history (world (snd (set_output_field target_field st))))
    = (written_ramps (history (world st)) ++ [ramp])%list /\
    Forall (between (MagnetOutput.voltage o) (H2V target_field)) ramp /\
    (below_maxima (obj st) ->
     Forall (fun x => x < V_OUT_MAX (obj st) /\ x < V_IN_MAX (obj st)) ramp).
Proof.
  intros Hout Hvalid Hq Hlen.
  destruct (np_linspace_length (MagnetOutput.voltage o) (H2V target_field)
              (WRITE_ARRAY_LENGTH (obj st)) Hlen) as (ramp & Hramp & _).
  pose proof (np_linspace_between _ _ _ _ Hramp) as Hbetween.
  pose proof Hvalid as Hcheck. apply voltage_check_valid in Hcheck.
  destruct (set_output_field_ramped target_field st o ramp Hout Hcheck Hramp Hq)
    as (_ & _ & _ & _ & _ & _ & _ & Hwr).
  exists ramp. split; [exact Hwr|]. split; [exact Hbetween|].
  intros Hinv. unfold below_maxima in Hinv. rewrite Hout in Hinv.
  destruct Hinv as [Hvo Hvi]. destruct Hvalid as [Hto Hti].
  eapply List.Forall_impl; [|exact Hbetween].
  intros x Hx. split.
  - apply (between_below _ _ _ _ Hx Hvo Hto).
  - apply (between_below _ _ _ _ Hx Hvi Hti).
Qed.

Lemma ramp_stays_between_ends_witness :
  let st := started default_config (bench [0] (NoFile true)) in
  exists ramp,
    written_ramps (history (world (snd (set_output_field 3000 st)))) = [ramp] /\
    Forall (fun x => x < 10.0 /\ x < 10.0) ramp.
Proof.
  intros st.
  assert (Hout : _output_field (obj st) = Some (MagnetOutput.make 3%Z 0 0))
    by (vm_compute; reflexivity).
  assert (Hvalid : voltage_valid (obj st) 3000)
    by (split; vm_compute; reflexivity).
  assert (Hq : quiet (world st) 7) by (intros i _; vm_compute; reflexivity).
  assert (Hlen : (0 <= WRITE_ARRAY_LENGTH (obj st))%Z)
    by (vm_compute; discriminate).
  destruct (ramp_stays_between_ends 3000 st _ Hout Hvalid Hq Hlen)
    as (ramp & Hwr & _ & Hbelow).
  exists ramp. split; [exact Hwr|].
  apply Hbelow. unfold below_maxima. rewrite Hout.
  split; vm_compute; reflexivity.
Defined.


Lemma voltage_check_config (s s' : Controller) (target_field : Q) :
  config s' = config s ->
  voltage_check s' target_field = voltage_check s target_field.
Proof.
  intros Hc. unfold voltage_check.
  change (V_OUT_MAX s') with (V_OUT_MAX (config s')).
  change (V_IN_MAX s') with (V_IN_MAX (config s')).
  rewrite Hc. reflexivity.
Qed.

(** X8: ramps join.  Of two targets set one after the other, both
    passing the check, on a driver whose calls succeed and with a ramp
    of two or more samples, the first ramp ends exactly at the voltage
    of the first target and the second ramp starts there and ends at
    the voltage of the second target, which [_output_field] then
    records; this holds whether or not the log calls return. *)
Theorem consecutive_ramps_join (x y : Q) (st : State) o :
  _output_field (obj st) = Some o ->
  voltage_valid (obj st) x ->
  voltage_valid (obj st) y ->
  quiet (world st) 14 ->
  (2 <= WRITE_ARRAY_LENGTH (obj st))%Z ->
  let st1 := snd (set_output_field x st) in
  let st2 := snd (set_output_field y st1) in
  exists r1 r2,
    written_ramps (history (world st2))
    = (written_ramps (history (world st)) ++ [r1; r2])%list /\
    nth 0 r1 0 == MagnetOutput.voltage o /\
    List.last r1 0 = H2V x /\
    nth 0 r2 0 == H2V x /\
    List.last r2 0 = H2V y /\
    option_map MagnetOutput.field (_output_field (obj st2)) = Some y /\
    option_map MagnetOutput.voltage (_output_field (obj st2)) = Some (H2V y).
Proof.
  intros Hout Hx Hy Hq Hlen st1 st2.
  set (N := WRITE_ARRAY_LENGTH (obj st)) in *.
  apply voltage_check_valid in Hx. apply voltage_check_valid in Hy.
  destruct (np_linspace_line (MagnetOutput.voltage o) (H2V x) N Hlen)
    as (g1 & Hr1 & Hg1).
  destruct (np_linspace_line (H2V x) (H2V y) N Hlen) as (g2 & Hr2 & Hg2).
  set (r1 := (map g1 (seq 0 (Z.to_nat (N - 1))) ++ [H2V x])%list) in *.
  set (r2 := (map g2 (seq 0 (Z.to_nat (N - 1))) ++ [H2V y])%list) in *.
  destruct (set_output_field_ramped x st o r1 Hout Hx Hr1
              (quiet_le _ 14 7 ltac:(lia) Hq))
    as (_ & Hc1 & Ho1 & _ & _ & Hdr1 & Hcalls1 & Hw1).
  fold st1 in Hc1, Ho1, Hdr1, Hcalls1, Hw1.
  assert (HN1 : WRITE_ARRAY_LENGTH (obj st1) = N).
  { change (WRITE_ARRAY_LENGTH (config (obj st1)) = N). rewrite Hc1.
    reflexivity. }
  assert (Hq1 : quiet (world st1) 7).
  { intros i Hi. rewrite Hdr1, Hcalls1, length_app.
    cbn [write_session rev app length].
    replace (i + (7 + length (daq_calls (world st))))%nat
      with ((i + 7) + length (daq_calls (world st)))%nat by lia.
    apply Hq. lia. }
  assert (Hy1 : voltage_check (obj st1) y = true)
    by (rewrite (voltage_check_config (obj st) (obj st1) y Hc1); exact Hy).
  assert (Hr2' : np_linspace
                   (MagnetOutput.voltage
                      (MagnetOutput.make (clock (world st) (ticks (world st)))
                         x (H2V x)))
                   (H2V y) (WRITE_ARRAY_LENGTH (obj st1)) = Return r2)
    by (rewrite HN1; exact Hr2).
  destruct (set_output_field_ramped y st1 _ r2 Ho1 Hy1 Hr2' Hq1)
    as (_ & _ & Ho2 & _ & _ & _ & _ & Hw2).
  fold st2 in Ho2, Hw2.
  assert (Hhead : forall (g : nat -> Q) (b : Q),
             nth 0 (map g (seq 0 (Z.to_nat (N - 1))) ++ [b])%list 0 = g 0%nat).
  { intros g b. destruct (Z.to_nat (N - 1)) as [|m] eqn:E; [lia|].
    reflexivity. }
  exists r1, r2. split; [|split; [|split; [|split; [|split; [|split]]]]].
  - rewrite Hw2, Hw1, <- app_assoc. reflexivity.
  - unfold r1. rewrite Hhead, Hg1. unfold ramp_point. cbn [Z.of_nat]. ring.
  - apply last_last.
  - unfold r2. rewrite Hhead, Hg2. unfold ramp_point. cbn [Z.of_nat]. ring.
  - apply last_last.
  - rewrite Ho2. reflexivity.
  - rewrite Ho2. reflexivity.
Qed.

Lemma consecutive_ramps_join_witness :
  let st := started (with_WRITE_ARRAY_LENGTH 3 default_config)
              (bench [0] (NoFile true)) in
  exists r1 r2,
    written_ramps
      (history (world (snd (set_output_field 200
                              (snd (set_output_field 100 st))))))
    = [r1; r2] /\
    List.last r1 0 = H2V 100 /\ nth 0 r2 0 == H2V 100 /\
    List.last r2 0 = H2V 200.
Proof.
  intros st.
  assert (Hout : _output_field (obj st) = Some (MagnetOutput.make 3%Z 0 0))
    by (vm_compute; reflexivity).
  assert (Hx : voltage_valid (obj st) 100) by (split; vm_compute; reflexivity).
  assert (Hy : voltage_valid (obj st) 200) by (split; vm_compute; reflexivity).
  assert (Hq : quiet (world st) 14) by (intros i _; vm_compute; reflexivity).
  assert (Hlen : (2 <= WRITE_ARRAY_LENGTH (obj st))%Z)
    by (vm_compute; discriminate).
  destruct (consecutive_ramps_join 100 200 st _ Hout Hx Hy Hq Hlen)
    as (r1 & r2 & Hw & _ & Hl1 & Hh2 & Hl2 & _).
  exists r1, r2. repeat split; assumption.
Defined.

(** X9: a ramp length of 0 or 1 never sends the target.  For a target
    that passes the check, on a driver whose calls succeed: with
    [WRITE_ARRAY_LENGTH = 0] the setter writes an empty array, with
    [WRITE_ARRAY_LENGTH = 1] it writes the current commanded voltage
    alone; in both cases [_output_field] then records the target field
    and its voltage. *)
Theorem short_ramp_misses_target (target_field : Q) (st : State) o :
  _output_field (obj st) = Some o ->
  voltage_valid (obj st) target_field ->
  quiet (world st) 7 ->
  let w := world st in
  let st' := snd (set_output_field target_field st) in
  (WRITE_ARRAY_LENGTH (obj st) = 0%Z ->
   written_ramps (history (world st'))
   = (written_ramps (history w) ++ [[]])%list /\
   _output_field (obj st')
   = Some (MagnetOutput.make (clock w (ticks w)) target_field
             (H2V target_field))) /\
  (WRITE_ARRAY_LENGTH (obj st) = 1%Z ->
   (exists x, written_ramps (history (world st'))
              = (written_ramps (history w) ++ [[x]])%list /\
              x == MagnetOutput.voltage o) /\
   _output_field (obj st')
   = Some (MagnetOutput.make (clock w (ticks w)) target_field
             (H2V target_field))).
Proof.
  intros Hout Hvalid Hq w st'. apply voltage_check_valid in Hvalid.
  split; intros HN.
  - assert (Hramp : np_linspace (MagnetOutput.voltage o) (H2V target_field)
                      (WRITE_ARRAY_LENGTH (obj st)) = Return [])
      by (rewrite HN; apply np_linspace_zero).
    destruct (set_output_field_ramped target_field st o [] Hout Hvalid Hramp Hq)
      as (_ & _ & Ho & _ & _ & _ & _ & Hwr).
    split; assumption.
  - assert (Hramp : np_linspace (MagnetOutput.voltage o) (H2V target_field)
                      (WRITE_ARRAY_LENGTH (obj st))
                    = Return [inject_Z 0 * (H2V target_field
                                            - MagnetOutput.voltage o)
                              + MagnetOutput.voltage o])
      by (rewrite HN; apply np_linspace_one).
    destruct (set_output_field_ramped target_field st o _ Hout Hvalid Hramp Hq)
      as (_ & _ & Ho & _ & _ & _ & _ & Hwr).
    split; [|exact Ho]. eexists. split; [exact Hwr|]. ring.
Qed.

Lemma short_ramp_misses_target_witness :
  (let st := started (with_WRITE_ARRAY_LENGTH 0 default_config)
               (bench [0] (NoFile true)) in
   written_ramps (history (world (snd (set_output_field 100 st)))) = [[]] /\
   option_map MagnetOutput.voltage
     (_output_field (obj (snd (set_output_field 100 st)))) = Some (H2V 100)) /\
  (let st := started (with_WRITE_ARRAY_LENGTH 1 default_config)
               (bench [0] (NoFile true)) in
   exists x,
     written_ramps (history (world (snd (set_output_field 100 st)))) = [[x]] /\
     x == 0).
Proof.
  split; intros st.
  - assert (Hout : _output_field (obj st) = Some (MagnetOutput.make 3%Z 0 0))
      by (vm_compute; reflexivity).
    assert (Hvalid : voltage_valid (obj st) 100)
      by (split; vm_compute; reflexivity).
    assert (Hq : quiet (world st) 7) by (intros i _; vm_compute; reflexivity).
    destruct (short_ramp_misses_target 100 st _ Hout Hvalid Hq) as [H0 _].
    destruct H0 as [Hwr Ho]; [vm_compute; reflexivity|].
    split; [exact Hwr|]. rewrite Ho. reflexivity.
  - assert (Hout : _output_field (obj st) = Some (MagnetOutput.make 3%Z 0 0))
      by (vm_compute; reflexivity).
    assert (Hvalid : voltage_valid (obj st) 100)
      by (split; vm_compute; reflexivity).
    assert (Hq : quiet (world st) 7) by (intros i _; vm_compute; reflexivity).
    destruct (short_ramp_misses_target 100 st _ Hout Hvalid Hq) as [_ H1].
    destruct H1 as [(x & Hwr & Hx) _]; [vm_compute; reflexivity|].
    exists x. split; assumption.
Defined.

(** A negative ramp length stops the setter at [np.linspace]. *)
Lemma set_output_field_negative_length (target_field : Q) (st : State) o :
  _output_field (obj st) = Some o ->
  voltage_check (obj st) target_field = true ->
  (WRITE_ARRAY_LENGTH (obj st) < 0)%Z ->
  quiet (world st) 3 ->
  let w := world st in
  let task := length (daq_calls w) in
  set_output_field target_field st
  = (Raise (ValueError (linspace_error (WRITE_ARRAY_LENGTH (obj st)))),
     {| obj := obj st;
        world :=
          {| clock := clock w; ticks := ticks w;
             daq_raises := daq_raises w; daq_data := daq_data w;
             daq_calls :=
               [ cfg_samp_clk_timing task (WRITE_SAMPLE_CLOCK (obj st));
                 add_ao_voltage_chan task
                   (DAQ_ADDRESS (obj st) ++ "/" ++ V_OUT_ADDRESS (obj st))
                   (V_OUT_MIN (obj st)) (V_OUT_MAX (obj st));
                 Task_new ] ++ daq_calls w;
             open_tasks := task :: open_tasks w;
             stdout := stdout w; files := files w |} |}).
Proof.
  destruct st as [[cfg lg out meas] [clk tk dr dd calls opn con fs]].
  unfold voltage_check, set_output_field. exec.
  intros -> Hcheck Hneg H. calm H 3%nat. clear H.
  rewrite Hcheck. clear Hcheck. drive.
  rewrite (np_linspace_negative _ _ _ Hneg). reflexivity.
Qed.

(** X10: with a negative [WRITE_ARRAY_LENGTH] every target that passes
    the check is refused by [np.linspace] with a [ValueError] that is
    not the invalid-output-voltage error.  The task is already created
    and configured by then and stays open; nothing is written to the
    hardware, nothing is logged and [_output_field] is unchanged. *)
Theorem negative_ramp_length_raises (target_field : Q) (st : State) o :
  _output_field (obj st) = Some o ->
  voltage_valid (obj st) target_field ->
  (WRITE_ARRAY_LENGTH (obj st) < 0)%Z ->
  quiet (world st) 3 ->
  let w := world st in
  let r := fst (set_output_field target_field st) in
  let st' := snd (set_output_field target_field st) in
  (exists msg, r = Raise (ValueError msg)) /\
  r <> Raise invalid_output_voltage /\
  obj st' = obj st /\
  In (length (daq_calls w)) (open_tasks (world st')) /\
  written_ramps (history (world st')) = written_ramps (history w) /\
  stdout (world st') = stdout w /\ files (world st') = files w.
Proof.
  intros Hout Hvalid Hneg Hq w r st'. subst r st'.
  apply voltage_check_valid in Hvalid.
  rewrite (set_output_field_negative_length target_field st o Hout Hvalid
             Hneg Hq).
  cbn [fst snd obj world open_tasks stdout files].
  split; [eexists; reflexivity|]. split; [discriminate|].
  split; [reflexivity|]. split; [left; reflexivity|].
  split; [|split; reflexivity].
  unfold history. cbn [daq_calls app].
  rewrite !written_ramps_rev_cons by reflexivity. reflexivity.
Qed.

Lemma negative_ramp_length_raises_witness :
  let st := started (with_WRITE_ARRAY_LENGTH (-1) default_config)
              (bench [0] (NoFile true)) in
  (exists msg, fst (set_output_field 100 st) = Raise (ValueError msg)) /\
  obj (snd (set_output_field 100 st)) = obj st /\
  In 7%nat (open_tasks (world (snd (set_output_field 100 st)))).
Proof.
  intros st.
  assert (Hout : _output_field (obj st) = Some (MagnetOutput.make 3%Z 0 0))
    by (vm_compute; reflexivity).
  assert (Hvalid : voltage_valid (obj st) 100)
    by (split; vm_compute; reflexivity).
  assert (Hneg : (WRITE_ARRAY_LENGTH (obj st) < 0)%Z)
    by (vm_compute; reflexivity).
  assert (Hq : quiet (world st) 3) by (intros i _; vm_compute; reflexivity).
  destruct (negative_ramp_length_raises 100 st _ Hout Hvalid Hneg Hq)
    as (Hr & _ & Ho & Hopen & _).
  split; [exact Hr|]. split; [exact Ho|].
  assert (E : length (daq_calls (world st)) = 7%nat)
    by (vm_compute; reflexivity).
  rewrite <- E. exact Hopen.
Defined.

(** X11: a target that fails the check never reaches the hardware.
    The setter makes no driver call and opens no task; it adds the
    message to the in-memory log under the first reading of the clock,
    takes two readings, and leaves the measurement and the output
    record alone. *)
Theorem refused_target_makes_no_driver_call (target_field : Q) (st : State) :
  ~ voltage_valid (obj st) target_field ->
  let w := world st in
  let st' := snd (set_output_field target_field st) in
  daq_calls (world st') = daq_calls w /\
  open_tasks (world st') = open_tasks w /\
  _log (obj st')
  = <[clock w (ticks w) := Str "--- Output voltage is not valid. ---"]>
      (_log (obj st)) /\
  ticks (world st') = S (S (ticks w)) /\
  _measured_field (obj st') = _measured_field (obj st) /\
  _output_field (obj st') = _output_field (obj st).
Proof.
  intros Hbad w st'. subst st'. apply voltage_check_invalid in Hbad.
  rewrite (set_output_field_invalid target_field st Hbad).
  destruct (log_frame (Str "--- Output voltage is not valid. ---") st)
    as (_ & Ho & Hm & Hl & _ & Ht & _ & _ & Hcalls & Hopen).
  unfold bind.
  destruct (log (Str "--- Output voltage is not valid. ---") st)
    as [[[]|e] s1]; cbn [fst snd raise] in *; repeat split; assumption.
Qed.

Lemma refused_target_makes_no_driver_call_witness :
  let st := started default_config (bench [0] (NoFile true)) in
  daq_calls (world (snd (set_output_field 10000 st))) = daq_calls (world st) /\
  open_tasks (world (snd (set_output_field 10000 st))) = open_tasks (world st).
Proof.
  intros st.
  assert (Hbad : ~ voltage_valid (obj st) 10000).
  { intros [H _]. vm_compute in H. discriminate H. }
  destruct (refused_target_makes_no_driver_call 10000 st Hbad)
    as (Hc & Ho & _).
  split; assumption.
Defined.

(** ** What a constructed controller always has *)

(** The setter never touches the measurement, and asks for an attribute
    of [None] only when there is no output record. *)
Lemma set_output_field_untouched (target_field : Q) (st : State) :
  _measured_field (obj (snd (set_output_field target_field st)))
  = _measured_field (obj st) /\
  (fst (set_output_field target_field st) = Raise AttributeError ->
   _output_field (obj st) = None).
Proof.
  destruct (voltage_check (obj st) target_field) eqn:Hcheck.
  - destruct st as [[cfg lg out meas] [clk tk dr dd calls opn con fs]].
    unfold voltage_check in Hcheck. cbn [obj config] in Hcheck.
    unfold set_output_field. exec. rewrite Hcheck.
    destruct (dr (length calls)) eqn:E0; exec;
      [split; [reflexivity | discriminate]|].
    destruct (dr (S (length calls))) eqn:E1; exec;
      [split; [reflexivity | discriminate]|].
    destruct (dr (S (S (length calls)))) eqn:E2; exec;
      [split; [reflexivity | discriminate]|].
    destruct out as [o|]; exec; [|split; reflexivity].
    destruct (np_linspace _ _ _) as [ramp|e] eqn:Eramp; exec.
    + destruct (dr (S (S (S (length calls))))) eqn:E3; exec;
        [split; [reflexivity | discriminate]|].
      destruct (dr (S (S (S (S (length calls)))))) eqn:E4; exec;
        [split; [reflexivity | discriminate]|].
      destruct (dr (S (S (S (S (S (length calls))))))) eqn:E5; exec;
        [split; [reflexivity | discriminate]|].
      destruct (dr (S (S (S (S (S (S (length calls)))))))) eqn:E6; exec;
        [split; [reflexivity | discriminate]|].
      logged; cbn [fst snd].
      * split; [exact Hmeas | discriminate].
      * split; [exact Hmeas|]. intros E.
        destruct Hres as [Hr | [Hr | Hr]]; congruence.
    + split; [reflexivity|]. cbn [fst]. intros E. exfalso.
      unfold np_linspace in Eramp.
      destruct (WRITE_ARRAY_LENGTH cfg <? 0)%Z; [|discriminate Eramp].
      injection Eramp as <-. discriminate E.
  - rewrite (set_output_field_invalid target_field st Hcheck).
    unfold bind. logged; cbn [fst snd raise].
    + split; [exact Hmeas | discriminate].
    + split; [exact Hmeas|]. intros E.
      destruct Hres as [Hr | [Hr | Hr]]; congruence.
Qed.

(** What every operation keeps once it holds. *)
Lemma run_keeps_records (o : operation) (st : State) :
  is_Some (_output_field (obj st)) ->
  is_Some (_measured_field (obj st)) ->
  is_Some (_output_field (obj (snd (run o st)))) /\
  is_Some (_measured_field (obj (snd (run o st)))).
Proof.
  intros Ho Hm.
  destruct o as [| |target_field|H|V|msg]; cbn [run].
  - destruct (measured_field_untouched st) as (_ & _ & Hout & _ & _ & _ & Herr).
    unfold discard.
    destruct (measured_field st) as [[a|e] s1] eqn:E; cbn [fst snd] in *.
    + split; [rewrite Hout; exact Ho|].
      assert (Hq : quiet (world st) 7).
      { apply (measured_field_Return st a). rewrite E. reflexivity. }
      rewrite (measured_field_quiet st Hq) in E. injection E as _ <-.
      eexists. reflexivity.
    + destruct (Herr e eq_refl) as (_ & Hmeas & _).
      split; [rewrite Hout; exact Ho | rewrite Hmeas; exact Hm].
  - split; assumption.
  - destruct (set_output_field_effect target_field st)
      as (_ & [Hout | (_ & t & Hout)] & _);
      destruct (set_output_field_untouched target_field st) as [Hmeas _];
      rewrite Hout, Hmeas; split; try assumption; eexists; reflexivity.
  - split; assumption.
  - split; assumption.
  - destruct (log_frame msg st) as (_ & Hout & Hmeas & _).
    rewrite Hout, Hmeas. split; assumption.
Qed.

(** X12: a controller that came out of its constructor keeps the
    configuration it was built with and always has an output record
    and a measurement, whatever operations followed and whether they
    returned or raised; so its setter never fails with an
    [AttributeError] on a missing output record. *)
Theorem constructed_controller_has_records (cfg : Config) (st : State) :
  reachable cfg st ->
  config (obj st) = cfg /\
  is_Some (_output_field (obj st)) /\
  is_Some (_measured_field (obj st)) /\
  forall target_field,
    fst (set_output_field target_field st) <> Raise AttributeError.
Proof.
  intros Hreach.
  assert (H : config (obj st) = cfg /\
              is_Some (_output_field (obj st)) /\
              is_Some (_measured_field (obj st))).
  { induction Hreach as [w st E | o st Hreach (IHc & IHo & IHm)].
    - destruct (construct_Return cfg w st E) as (Hq & Hc & Ho).
      destruct (construct_quiet_effect cfg w Hq) as (_ & Hm & _).
      rewrite E in Hm. cbn [snd] in Hm.
      split; [exact Hc|]. split; eexists; eassumption.
    - destruct (run_keeps_records o st IHo IHm) as [Ho Hm].
      split; [|split; assumption].
      destruct o as [| |target_field|H|V|msg]; cbn [run].
      + destruct (measured_field_untouched st) as (Hc & _).
        unfold discard. destruct (measured_field st) as [[a|e] s1];
          cbn [fst snd] in *; congruence.
      + exact IHc.
      + destruct (set_output_field_effect target_field st) as (Hc & _).
        congruence.
      + exact IHc.
      + exact IHc.
      + destruct (log_frame msg st) as (Hc & _). congruence. }
  destruct H as (Hc & Ho & Hm).
  split; [exact Hc|]. split; [exact Ho|]. split; [exact Hm|].
  intros target_field E.
  destruct (set_output_field_untouched target_field st) as [_ Hnone].
  rewrite (Hnone E) in Ho. destruct Ho as [o Ho]. discriminate Ho.
Qed.

Lemma constructed_controller_has_records_witness :
  let st := started default_config (faulty_bench 10 [0] (NoFile true)) in
  let st' := snd (run (op_set_output_field 100) st) in
  config (obj st') = default_config /\
  is_Some (_output_field (obj st')) /\
  is_Some (_measured_field (obj st')).
Proof.
  intros st st'.
  assert (Hreach : reachable default_config st').
  { apply reach_run. apply started_reachable. vm_compute. reflexivity. }
  destruct (constructed_controller_has_records default_config st' Hreach)
    as (Hc & Ho & Hm & _).
  repeat split; assumption.
Defined.

(** ** The limits in numbers *)

Lemma H2V_horner (H : Q) :
  H2V H ==
  (-1268 # 100000) + H * ((281 # 100000) + H * ((302608 # 1000000000000000)
   + H * (- (15036 # 1000000000000000)
   + H * (- (166895 # 1000000000000000000000)
   + H * (315376 # 100000000000000000000000))))).
Proof.
  unfold H2V.
  assert (E2 : 3.02608e-10 == 302608 # 1000000000000000) by reflexivity.
  assert (E3 : 1.5036e-11 == 15036 # 1000000000000000) by reflexivity.
  assert (E4 : 1.66895e-16 == 166895 # 1000000000000000000000) by reflexivity.
  assert (E5 : 3.15376e-18 == 315376 # 100000000000000000000000)
    by reflexivity.
  rewrite E2, E3, E4, E5. ring.
Qed.

Lemma H2V_below_10 (H : Q) : 0 <= H -> H <= 3000 -> H2V H < 10.
Proof.
  intros H0 H1. rewrite H2V_horner.
  assert (P2 : H * H <= 3000 * 3000) by nra.
  assert (P2' : 0 <= H * H) by nra.
  assert (P3 : 0 <= H * H * H) by nra.
  assert (P4 : 0 <= H * H * H * H) by nra.
  assert (P4' : H * H * H * H <= 3000 * 3000 * 3000 * 3000) by nra.
  assert (P5 : H * H * H * H * H <= 3000 * 3000 * 3000 * 3000 * 3000) by nra.
  lra.
Qed.

Lemma H2V_above_10 (H : Q) : 4000 <= H -> 10 <= H2V H.
Proof.
  intros H0. rewrite H2V_horner.
  assert (P1 : 0 <= H) by lra.
  assert (P2 : 0 <= H * H) by nra.
  assert (P3 : 0 <= H * H * H) by nra.
  assert (B : 0 <= - (15036 # 1000000000000000)
                   + H * (- (166895 # 1000000000000000000000)
                          + H * (315376 # 100000000000000000000000))).
  { assert (Q1 : 4000 * H <= H * H) by nra. lra. }
  assert (P5 : 0 <= (H * H * H)
                    * (- (15036 # 1000000000000000)
                       + H * (- (166895 # 1000000000000000000000)
                              + H * (315376 # 100000000000000000000000))))
    by (apply Qmult_le_0_compat; assumption).
  lra.
Qed.

Lemma H2V_negative (H : Q) : H <= 0 -> H2V H < 0.
Proof.
  intros H0. rewrite H2V_horner.
  set (h := - H).
  assert (Hh : 0 <= h) by (unfold h; lra).
  assert (E : H == - h) by (unfold h; ring).
  rewrite E.
  assert (P2 : 0 <= h * h) by nra.
  assert (P3 : 0 <= h * h * h) by nra.
  assert (P4 : 0 <= h * h * h * h) by nra.
  assert (P5 : 0 <= h * h * h * h * h) by nra.
  destruct (Qlt_le_dec h 5000) as [Hs | Hl].
  - assert (Q2 : h * h <= 5000 * h) by nra.
    assert (Q3 : h * h * h <= 25000000 * h) by nra.
    lra.
  - assert (Q2 : 25000000 * (h * h) <= h * h * h * h) by nra.
    assert (Q3 : 25000000 * (h * h * h) <= h * h * h * h * h) by nra.
    lra.
Qed.

(** A target that fails the check makes the setter raise. *)
Lemma set_output_field_refused (target_field : Q) (st : State) :
  voltage_check (obj st) target_field = false ->
  exists e, fst (set_output_field target_field st) = Raise e.
Proof.
  intros Hbad. rewrite (set_output_field_invalid target_field st Hbad).
  unfold bind.
  destruct (log (Str "--- Output voltage is not valid. ---") st)
    as [[[]|e] s1]; cbn [fst raise]; eexists; reflexivity.
Qed.

(** X13: the range of the default limits.  With the two maxima at their
    default of 10 V, every target from -1000000 Oe up to 3000 Oe passes
    the check of the setter, the negative ones however far below the
    minimum of -10 V their voltage falls, and every target from
    4000 Oe to 1000000 Oe fails it, so that the setter raises. *)
Theorem default_limits_target_range (target_field : Q) (st : State) :
  V_OUT_MAX (obj st) == 10 -> V_IN_MAX (obj st) == 10 ->
  (-1000000 <= target_field -> target_field <= 3000 ->
   voltage_valid (obj st) target_field) /\
  (-1000000 <= target_field -> target_field <= 0 ->
   H2V target_field < 0) /\
  (4000 <= target_field -> target_field <= 1000000 ->
   ~ voltage_valid (obj st) target_field /\
   exists e, fst (set_output_field target_field st) = Raise e).
Proof.
  intros Hout Hin.
  assert (Hlow : -1000000 <= target_field -> target_field <= 3000 ->
                 H2V target_field < 10).
  { intros _ Hhi. destruct (Qlt_le_dec target_field 0) as [Hneg | Hpos].
    - assert (H2V target_field < 0) by (apply H2V_negative; lra). lra.
    - apply H2V_below_10; assumption. }
  split; [|split].
  - intros Hlo Hhi. unfold voltage_valid. rewrite Hout, Hin.
    split; apply Hlow; assumption.
  - intros _ Hhi. apply H2V_negative. exact Hhi.
  - intros Hlo _.
    assert (Hbad : ~ voltage_valid (obj st) target_field).
    { unfold voltage_valid. rewrite Hout. intros [H _].
      pose proof (H2V_above_10 target_field Hlo). lra. }
    split; [exact Hbad|].
    apply set_output_field_refused. apply voltage_check_invalid. exact Hbad.
Qed.

Lemma default_limits_target_range_witness :
  let st := started default_config (bench [0] (NoFile true)) in
  voltage_valid (obj st) 2500 /\
  voltage_valid (obj st) (-50000) /\
  H2V (-50000) < 0 /\
  ~ voltage_valid (obj st) 5000.
Proof.
  intros st.
  assert (Hout : V_OUT_MAX (obj st) == 10) by (vm_compute; reflexivity).
  assert (Hin : V_IN_MAX (obj st) == 10) by (vm_compute; reflexivity).
  split; [|split; [|split]].
  - apply (proj1 (default_limits_target_range 2500 st Hout Hin));
      vm_compute; discriminate.
  - apply (proj1 (default_limits_target_range (-50000) st Hout Hin));
      vm_compute; discriminate.
  - apply (proj1 (proj2 (default_limits_target_range (-50000) st Hout Hin)));
      vm_compute; discriminate.
  - apply (proj2 (proj2 (default_limits_target_range 5000 st Hout Hin)));
      vm_compute; discriminate.
Defined.

Lemma V2H_horner (V : Q) :
  V2H V ==
  (-5665 # 100000) + V * ((26016273 # 100000) + V * (- (21979 # 1000000000)
   + V * ((1858 # 100000) + V * ((197225 # 1000000000)
   + V * (- (233726 # 1000000000)))))).
Proof.
  unfold V2H.
  assert (E2 : 2.1979e-5 == 21979 # 1000000000) by reflexivity.
  assert (E4 : 1.97225e-4 == 197225 # 1000000000) by reflexivity.
  assert (E5 : 2.33726e-4 == 233726 # 1000000000) by reflexivity.
  rewrite E2, E4, E5. ring.
Qed.

Lemma V2H_near_zero (V : Q) :
  -0.038 <= V -> V <= 0.038 -> -10 < V2H V /\ V2H V < 10.
Proof.
  intros H0 H1. rewrite V2H_horner.
  assert (P2 : 0 <= V * V) by nra.
  assert (P2' : V * V <= 1) by nra.
  assert (P3 : -1 <= V * V * V /\ V * V * V <= 1) by nra.
  assert (P4 : 0 <= V * V * V * V /\ V * V * V * V <= 1) by nra.
  assert (P5 : -1 <= V * V * V * V * V /\ V * V * V * V * V <= 1) by nra.
  split; lra.
Qed.

Lemma V2H_positive_range (V : Q) : 0.04 <= V -> V <= 10 -> 10 <= V2H V.
Proof.
  intros H0 H1. rewrite V2H_horner.
  assert (P2 : 0 <= V * V /\ V * V <= 100) by nra.
  assert (P3 : 0 <= V * V * V) by nra.
  assert (P4 : 0 <= V * V * V * V) by nra.
  assert (P5 : V * V * V * V * V <= 10000 * V) by nra.
  lra.
Qed.

Lemma V2H_negative_range (V : Q) : -10 <= V -> V <= -0.04 -> V2H V <= -10.
Proof.
  intros H0 H1. rewrite V2H_horner.
  set (v := - V).
  assert (Hv : 0.04 <= v /\ v <= 10) by (unfold v; lra).
  assert (E : V == - v) by (unfold v; ring).
  rewrite E.
  assert (P2 : 0 <= v * v /\ v * v <= 100) by nra.
  assert (P3 : 0 <= v * v * v) by nra.
  assert (P4 : v * v * v * v <= 1000 * v) by nra.
  assert (P5 : v * v * v * v * v <= 10000 * v) by nra.
  lra.
Qed.




(** * The range of doubles *)

Lemma pow_expand (x : Q) :
  x ^ 2 == x * x /\ x ^ 3 == x * x * x /\ x ^ 4 == x * x * x * x /\
  x ^ 5 == x * x * x * x * x.
Proof. repeat split; ring. Qed.

Lemma Qabs_pow (x : Q) :
  Qabs (x ^ 2) == Qabs x * Qabs x /\
  Qabs (x ^ 3) == Qabs x * Qabs x * Qabs x /\
  Qabs (x ^ 4) == Qabs x * Qabs x * Qabs x * Qabs x /\
  Qabs (x ^ 5) == Qabs x * Qabs x * Qabs x * Qabs x * Qabs x.
Proof.
  destruct (pow_expand x) as (E2 & E3 & E4 & E5).
  rewrite E2, E3, E4, E5, !Qabs_Qmult. repeat split; reflexivity.
Qed.

Lemma products_le (a B : Q) :
  0 <= a -> a <= B ->
  a * a <= B * B /\ a * a * a <= B * B * B /\
  a * a * a * a <= B * B * B * B /\
  a * a * a * a * a <= B * B * B * B * B.
Proof.
  intros H0 H1.
  assert (P2 : a * a <= B * B) by nra.
  assert (P3 : a * a * a <= B * B * B) by nra.
  assert (P4 : a * a * a * a <= B * B * B * B) by nra.
  assert (P5 : a * a * a * a * a <= B * B * B * B * B) by nra.
  repeat split; assumption.
Qed.

Lemma in_range_bound_powers :
  0 <= in_range_bound /\
  in_range_bound * in_range_bound < float_overflow /\
  in_range_bound * in_range_bound * in_range_bound < float_overflow /\
  in_range_bound * in_range_bound * in_range_bound * in_range_bound
  < float_overflow /\
  in_range_bound * in_range_bound * in_range_bound * in_range_bound
  * in_range_bound < float_overflow.
Proof. vm_compute. repeat split; first [reflexivity | discriminate]. Qed.

Lemma out_of_range_bound_power :
  0 <= out_of_range_bound /\
  float_overflow
  <= out_of_range_bound * out_of_range_bound * out_of_range_bound
     * out_of_range_bound * out_of_range_bound.
Proof. vm_compute. split; discriminate. Qed.

Lemma Qle_bool_false (x y : Q) : y < x -> Qle_bool x y = false.
Proof.
  intros Hy. destruct (Qle_bool x y) eqn:Eb; [|reflexivity].
  apply Qle_bool_iff in Eb. exfalso. apply (Qlt_not_le _ _ Hy Eb).
Qed.

Lemma py_pow_in_range (x : Q) :
  Qabs x <= in_range_bound ->
  py_pow x 2 = Return (x ^ 2) /\ py_pow x 3 = Return (x ^ 3) /\
  py_pow x 4 = Return (x ^ 4) /\ py_pow x 5 = Return (x ^ 5).
Proof.
  intros Hx.
  destruct (products_le (Qabs x) in_range_bound (Qabs_nonneg x) Hx)
    as (P2 & P3 & P4 & P5).
  destruct in_range_bound_powers as (_ & L2 & L3 & L4 & L5).
  destruct (Qabs_pow x) as (E2 & E3 & E4 & E5).
  unfold py_pow.
  rewrite (Qle_bool_false float_overflow (Qabs (x ^ 2)))
    by (rewrite E2; eapply Qle_lt_trans; [exact P2 | exact L2]).
  rewrite (Qle_bool_false float_overflow (Qabs (x ^ 3)))
    by (rewrite E3; eapply Qle_lt_trans; [exact P3 | exact L3]).
  rewrite (Qle_bool_false float_overflow (Qabs (x ^ 4)))
    by (rewrite E4; eapply Qle_lt_trans; [exact P4 | exact L4]).
  rewrite (Qle_bool_false float_overflow (Qabs (x ^ 5)))
    by (rewrite E5; eapply Qle_lt_trans; [exact P5 | exact L5]).
  repeat split; reflexivity.
Qed.

Lemma py_pow_out_of_range (x : Q) :
  out_of_range_bound <= Qabs x -> py_pow x 5 = Raise OverflowError.
Proof.
  intros Hx.
  destruct out_of_range_bound_power as (H0 & L5).
  destruct (products_le out_of_range_bound (Qabs x) H0 Hx) as (_ & _ & _ & P5).
  destruct (Qabs_pow x) as (_ & _ & _ & E5).
  unfold py_pow.
  assert (Hb : Qle_bool float_overflow (Qabs (x ^ 5)) = true).
  { apply Qle_bool_iff. rewrite E5. eapply Qle_trans; [exact L5 | exact P5]. }
  rewrite Hb. reflexivity.
Qed.

Lemma V2H_py_Return (V v : Q) : V2H_py V = Return v -> v = V2H V.
Proof.
  unfold V2H_py, py_pow, and_then.
  destruct (Qle_bool _ _); [discriminate|].
  destruct (Qle_bool _ _); [discriminate|].
  destruct (Qle_bool _ _); [discriminate|].
  destruct (Qle_bool _ _); [discriminate|].
  intros E. injection E as <-. reflexivity.
Qed.

Lemma H2V_polynomial (H : Q) : H2V H == polynomial H2V_coefficients H.
Proof.
  unfold H2V, H2V_coefficients, polynomial.
  assert (E3 : -1.5036e-11 == - (1.5036e-11)) by reflexivity.
  assert (E4 : -1.66895e-16 == - (1.66895e-16)) by reflexivity.
  rewrite E3, E4. ring.
Qed.

Lemma V2H_polynomial (V : Q) : V2H V == polynomial V2H_coefficients V.
Proof.
  unfold V2H, V2H_coefficients, polynomial.
  assert (E2 : -2.1979e-5 == - (2.1979e-5)) by reflexivity.
  assert (E5 : -2.33726e-4 == - (2.33726e-4)) by reflexivity.
  rewrite E2, E5. ring.
Qed.

(** C4, as the code has it.  Wherever [H2V] and [V2H] return, their
    value is that of the polynomial of degree five with the listed
    coefficients (numbers read as exact rationals).  They return for
    every input of magnitude up to 1e61.  They are not total on Python
    floats: the only error they raise is [OverflowError], and they
    raise it for every input of magnitude 1e62 or more, whose fifth
    power is out of the range of doubles. *)
Theorem calibration_polynomials (H V : Q) :
  (forall v, H2V_py H = Return v -> v == polynomial H2V_coefficients H) /\
  (forall v, V2H_py V = Return v -> v == polynomial V2H_coefficients V) /\
  (Qabs H <= in_range_bound -> H2V_py H = Return (H2V H)) /\
  (Qabs V <= in_range_bound -> V2H_py V = Return (V2H V)) /\
  (out_of_range_bound <= Qabs H -> H2V_py H = Raise OverflowError) /\
  (out_of_range_bound <= Qabs V -> V2H_py V = Raise OverflowError) /\
  (forall e, H2V_py H = Raise e -> e = OverflowError) /\
  (forall e, V2H_py V = Raise e -> e = OverflowError) /\
  length H2V_coefficients = 6%nat /\
  length V2H_coefficients = 6%nat /\
  Qeq_bool (nth 5 H2V_coefficients 0) 0 = false /\
  Qeq_bool (nth 5 V2H_coefficients 0) 0 = false.
Proof.
  split; [|split; [|split; [|split; [|split; [|split; [|split; [|split]]]]]]].
  - intros v E. rewrite (H2V_py_Return H v E). apply H2V_polynomial.
  - intros v E. rewrite (V2H_py_Return V v E). apply V2H_polynomial.
  - intros Hx. destruct (py_pow_in_range H Hx) as (E2 & E3 & E4 & E5).
    unfold H2V_py. rewrite E2, E3, E4, E5. reflexivity.
  - intros Hx. destruct (py_pow_in_range V Hx) as (E2 & E3 & E4 & E5).
    unfold V2H_py. rewrite E2, E3, E4, E5. reflexivity.
  - intros Hx. pose proof (py_pow_out_of_range H Hx) as E5.
    unfold H2V_py. rewrite E5. unfold py_pow, and_then.
    destruct (Qle_bool _ _); [reflexivity|].
    destruct (Qle_bool _ _); [reflexivity|].
    destruct (Qle_bool _ _); reflexivity.
  - intros Hx. pose proof (py_pow_out_of_range V Hx) as E5.
    unfold V2H_py. rewrite E5. unfold py_pow, and_then.
    destruct (Qle_bool _ _); [reflexivity|].
    destruct (Qle_bool _ _); [reflexivity|].
    destruct (Qle_bool _ _); reflexivity.
  - unfold H2V_py, py_pow, and_then. intros e.
    destruct (Qle_bool _ _); [congruence|].
    destruct (Qle_bool _ _); [congruence|].
    destruct (Qle_bool _ _); [congruence|].
    destruct (Qle_bool _ _); [congruence|]. discriminate.
  - unfold V2H_py, py_pow, and_then. intros e.
    destruct (Qle_bool _ _); [congruence|].
    destruct (Qle_bool _ _); [congruence|].
    destruct (Qle_bool _ _); [congruence|].
    destruct (Qle_bool _ _); [congruence|]. discriminate.
  - repeat split; reflexivity.
Qed.

Lemma calibration_polynomials_witness :
  H2V_py 1000 = Return (H2V 1000) /\
  H2V 1000 == polynomial H2V_coefficients 1000 /\
  V2H_py (-1e80) = Raise OverflowError.
Proof.
  destruct (calibration_polynomials 1000 (-1e80))
    as (Hpoly & _ & Hret & _ & _ & Hraise & _).
  assert (E : H2V_py 1000 = Return (H2V 1000)).
  { apply Hret. vm_compute. discriminate. }
  split; [exact E|]. split; [apply (Hpoly _ E)|].
  apply Hraise. vm_compute. discriminate.
Defined.

(** The claim fails at 1e70: the fifth power is out of the range of
    doubles and both conversions raise [OverflowError]. *)
Lemma conversion_overflows :
  H2V_py 1e70 = Raise OverflowError /\ V2H_py 1e70 = Raise OverflowError /\
  py_pow 1e70 4 = Return (1e70 ^ 4) /\ py_pow 1e70 5 = Raise OverflowError.
Proof. vm_compute. repeat split; reflexivity. Qed.

(** * Measuring and starting, with nan and failing calls *)

(** C6, as the code has it.  For every sequence of samples the read
    delivers, when the driver calls of the session succeed, the three
    after the read included: the accessor stores the record of the
    current time, the field and the mean voltage, and returns the
    record it stored.  For samples that are not empty the mean is the
    arithmetic one (times the number of samples it is their sum) and
    the field is [V2H] of it; for no samples mean and field are nan.
    When [wait_until_done], [stop] or [close] raises after the read,
    the accessor raises the driver error and stores nothing. *)
Theorem measured_field_stores_mean (st : State) :
  let w := world st in
  let data := daq_data w (3 + length (daq_calls w)) in
  let st' := snd (measured_field st) in
  (quiet w 7 ->
   fst (measured_field st) = Return (_measured_field (obj st')) /\
   _measured_field (obj st')
   = Some (MeasuredMagneticField.make (clock w (ticks w))
             (option_map V2H (np_mean data)) (np_mean data)) /\
   (data <> [] ->
    exists m, np_mean data = Some m /\
              m * inject_Z (Z.of_nat (length data)) == np_sum data) /\
   (data = [] -> np_mean data = None) /\
   history (world st')
   = (history w ++ read_session (obj st) (length (daq_calls w)))%list) /\
  (forall j, (4 <= j <= 6)%nat -> first_failure w j ->
   fst (measured_field st) = Raise DaqError /\
   _measured_field (obj st') = _measured_field (obj st)).
Proof.
  intros w data st'. split.
  - intros H. subst st'. rewrite (measured_field_quiet st H). cbn [fst snd].
    split; [reflexivity|]. split; [reflexivity|].
    split; [apply np_mean_spec|]. split; [intros ->; reflexivity|].
    apply history_measured_state.
  - intros j Hj Hfail.
    assert (Hr : fst (measured_field st) = Raise DaqError)
      by (apply (measured_field_raises st j); [lia | exact Hfail]).
    split; [exact Hr|].
    destruct (measured_field_untouched st) as (_ & _ & _ & _ & _ & _ & Herr).
    apply (Herr DaqError Hr).
Qed.

Lemma measured_field_stores_mean_witness :
  (let st := fresh default_config (bench [1; 2; 6] (NoFile true)) in
   _measured_field (obj (snd (measured_field st)))
   = Some (MeasuredMagneticField.make 0%Z (option_map V2H (np_mean [1; 2; 6]))
             (np_mean [1; 2; 6])) /\
   exists m, np_mean [1; 2; 6] = Some m /\ m * 3 == 1 + (2 + (6 + 0))) /\
  (let st := fresh default_config (bench [] (NoFile true)) in
   _measured_field (obj (snd (measured_field st)))
   = Some (MeasuredMagneticField.make 0%Z None None)) /\
  (let st := fresh default_config (faulty_bench 4 [1; 2; 6] (NoFile true)) in
   fst (measured_field st) = Raise DaqError /\
   _measured_field (obj (snd (measured_field st))) = None).
Proof.
  split; [|split]; intros st.
  - assert (Hq : quiet (world st) 7) by (intros i _; reflexivity).
    destruct (proj1 (measured_field_stores_mean st) Hq)
      as (_ & Hm & Hmean & _).
    split; [exact Hm|]. apply Hmean. discriminate.
  - assert (Hq : quiet (world st) 7) by (intros i _; reflexivity).
    destruct (proj1 (measured_field_stores_mean st) Hq) as (_ & Hm & _).
    exact Hm.
  - apply (proj2 (measured_field_stores_mean st) 4%nat); [lia|].
    split; [intros i Hi | reflexivity].
    destruct i as [|[|[|[|i]]]]; try reflexivity; lia.
Defined.

(** The claim fails when a call after the read raises: the read has
    delivered its samples, yet no mean is stored or returned. *)
Lemma samples_read_but_not_stored :
  let st := fresh default_config (faulty_bench 4 [1; 2; 6] (NoFile true)) in
  history (world (snd (measured_field st)))
  = [Task_new; add_ai_voltage_chan 0 "Dev1/ai0" (-10.0) 10.0;
     cfg_samp_clk_timing 0 (inject_Z 1000); task_read 0 100;
     wait_until_done 0] /\
  daq_raises (world st) 3 = false /\
  daq_data (world st) 3 = [1; 2; 6] /\
  fst (measured_field st) = Raise DaqError /\
  _measured_field (obj (snd (measured_field st))) = None.
Proof. vm_compute. repeat split; reflexivity. Qed.

(** * Sessions *)

(** Without an output record the setter stops at the attribute access,
    after the task was created and configured. *)
Lemma set_output_field_no_record (target_field : Q) (st : State) :
  _output_field (obj st) = None ->
  voltage_check (obj st) target_field = true ->
  quiet (world st) 3 ->
  fst (set_output_field target_field st) = Raise AttributeError /\
  In (length (daq_calls (world st)))
     (open_tasks (world (snd (set_output_field target_field st)))).
Proof.
  destruct st as [[cfg lg out meas] [clk tk dr dd calls opn con fs]].
  unfold voltage_check, set_output_field. exec.
  intros -> Hcheck H. calm H 3%nat. clear H.
  rewrite Hcheck. clear Hcheck. drive.
  split; [reflexivity | left; reflexivity].
Qed.

(** C7, as the code has it.  When every driver call of the operation
    succeeds, the session that [measured_field] or the setter opened is
    stopped and closed, and is not among the open tasks when the
    operation ends.  When a driver call after the opening raises, the
    operation ends with an error and the session is still open: the
    [stop] and [close] calls follow the hardware calls without any
    handler around them.  The same holds in the setter on a working
    driver when the attribute access on a missing output record or
    [np.linspace] on a negative length raises between the driver
    calls. *)
Theorem sessions_closed_on_success_only (target_field : Q) (st : State) :
  let task := length (daq_calls (world st)) in
  (quiet (world st) 7 ->
   let w' := world (snd (measured_field st)) in
   ~ In task (open_tasks w') /\
   In (task_stop task) (daq_calls w') /\ In (task_close task) (daq_calls w')) /\
  (forall j, (1 <= j <= 6)%nat -> first_failure (world st) j ->
   fst (measured_field st) = Raise DaqError /\
   In task (open_tasks (world (snd (measured_field st))))) /\
  (forall o, _output_field (obj st) = Some o ->
   voltage_valid (obj st) target_field ->
   (0 <= WRITE_ARRAY_LENGTH (obj st))%Z ->
   quiet (world st) 7 ->
   let w' := world (snd (set_output_field target_field st)) in
   ~ In task (open_tasks w') /\
   In (task_stop task) (daq_calls w') /\ In (task_close task) (daq_calls w')) /\
  (forall j, voltage_valid (obj st) target_field ->
   (1 <= j <= 6)%nat -> first_failure (world st) j ->
   (exists e, fst (set_output_field target_field st) = Raise e) /\
   In task (open_tasks (world (snd (set_output_field target_field st))))) /\
  (_output_field (obj st) = None ->
   voltage_valid (obj st) target_field ->
   quiet (world st) 3 ->
   fst (set_output_field target_field st) = Raise AttributeError /\
   In task (open_tasks (world (snd (set_output_field target_field st))))) /\
  (forall o, _output_field (obj st) = Some o ->
   voltage_valid (obj st) target_field ->
   (WRITE_ARRAY_LENGTH (obj st) < 0)%Z ->
   quiet (world st) 3 ->
   (exists msg, fst (set_output_field target_field st)
                = Raise (ValueError msg)) /\
   In task (open_tasks (world (snd (set_output_field target_field st))))).
Proof.
  intros task. split; [|split; [|split; [|split; [|split]]]].
  - intros Hq w'. subst w'. rewrite (measured_field_quiet st Hq).
    cbn [snd measured_state world open_tasks daq_calls read_session rev app].
    split; [apply closed_task_not_open|].
    split; [right; left; reflexivity | left; reflexivity].
  - intros j Hj Hfail. apply (measured_field_failure st j Hj Hfail).
  - intros o Hout Hvalid Hlen Hq w'. subst w'.
    destruct (np_linspace_length (MagnetOutput.voltage o) (H2V target_field)
                (WRITE_ARRAY_LENGTH (obj st)) Hlen) as (ramp & Hramp & _).
    apply voltage_check_valid in Hvalid.
    rewrite (set_output_field_quiet target_field st o ramp Hout Hvalid Hramp Hq).
    destruct (log_frame (FStr "--- Magnetic field is set to " target_field
                           " Oe. ---")
                (ramp_state target_field ramp st))
      as (_ & _ & _ & _ & _ & _ & _ & _ & Hcalls & Hopen).
    rewrite Hcalls, Hopen.
    cbn [ramp_state world open_tasks daq_calls write_session rev app].
    split; [apply closed_task_not_open|].
    split; [right; left; reflexivity | left; reflexivity].
  - intros j Hvalid Hj Hfail. apply voltage_check_valid in Hvalid.
    apply (set_output_field_failure target_field st j Hvalid Hj Hfail).
  - intros Hnone Hvalid Hq. apply voltage_check_valid in Hvalid.
    apply (set_output_field_no_record target_field st Hnone Hvalid Hq).
  - intros o Hout Hvalid Hneg Hq. apply voltage_check_valid in Hvalid.
    rewrite (set_output_field_negative_length target_field st o Hout Hvalid
               Hneg Hq).
    cbn [fst snd world open_tasks].
    split; [eexists; reflexivity | left; reflexivity].
Qed.

Lemma sessions_closed_on_success_only_witness :
  (let st := fresh default_config (bench [0] (NoFile true)) in
   ~ In 0%nat (open_tasks (world (snd (measured_field st))))) /\
  (let st := fresh default_config (faulty_bench 3 [0] (NoFile true)) in
   fst (measured_field st) = Raise DaqError /\
   In 0%nat (open_tasks (world (snd (measured_field st))))) /\
  (let st := fresh default_config (bench [0] (NoFile true)) in
   fst (set_output_field 100 st) = Raise AttributeError /\
   In 0%nat (open_tasks (world (snd (set_output_field 100 st))))).
Proof.
  split; [|split].
  - intros st.
    destruct (sessions_closed_on_success_only 0 st) as (Hok & _).
    assert (Hq : quiet (world st) 7) by (intros i _; reflexivity).
    destruct (Hok Hq) as [Hclosed _]. exact Hclosed.
  - intros st.
    destruct (sessions_closed_on_success_only 0 st) as (_ & Hfail & _).
    apply (Hfail 3%nat); [lia|].
    split; [intros i Hi | reflexivity].
    destruct i as [|[|[|i]]]; [reflexivity | reflexivity | reflexivity | lia].
  - intros st.
    destruct (sessions_closed_on_success_only 100 st)
      as (_ & _ & _ & _ & Hnone & _).
    apply Hnone; [reflexivity | split; vm_compute; reflexivity |].
    intros i _. reflexivity.
Defined.

(** The claim fails when the driver raises inside a session: a read
    that raises ends [measured_field] with task 0 open and neither
    stopped nor closed, and a write that raises does the same to the
    setter with its task 7. *)
Lemma session_left_open_on_driver_error :
  (let st := fresh default_config (faulty_bench 3 [0] (NoFile true)) in
   fst (measured_field st) = Raise DaqError /\
   open_tasks (world (snd (measured_field st))) = [0%nat] /\
   history (world (snd (measured_field st)))
   = [Task_new; add_ai_voltage_chan 0 "Dev1/ai0" (-10.0) 10.0;
      cfg_samp_clk_timing 0 (inject_Z 1000); task_read 0 100]) /\
  (let st := started default_config (faulty_bench 10 [0] (NoFile true)) in
   fst (construct default_config (faulty_bench 10 [0] (NoFile true)))
   = Return tt /\
   open_tasks (world st) = [] /\
   fst (set_output_field 100 st) = Raise DaqError /\
   open_tasks (world (snd (set_output_field 100 st))) = [7%nat] /\
   count_calls is_write (history (world (snd (set_output_field 100 st))))
   = 1%nat /\
   existsb (fun c => match c with
                     | task_stop 7 | task_close 7 => true
                     | _ => false
                     end)
     (history (world (snd (set_output_field 100 st)))) = false).
Proof. vm_compute. repeat split; reflexivity. Qed.

(** * Construction, case by case *)

Lemma nan_lt_abs_Some (x : Q) :
  nan_lt (np_abs (Some x)) 10 = true <-> Qabs x < 10.
Proof. cbn. apply Qltb_lt. Qed.

Lemma nan_lt_abs_Some_false (x : Q) :
  nan_lt (np_abs (Some x)) 10 = false <-> 10 <= Qabs x.
Proof. cbn. apply Qltb_ge. Qed.

(** The result of construction on a quiet driver with a log file that
    can be written. *)
Lemma construct_quiet_result (cfg : Config) (w : World) :
  quiet w 7 ->
  log_writable (fresh cfg w) = true ->
  fst (construct cfg w)
  = if nan_lt (np_abs (MeasuredMagneticField.field (measured w))) 10
    then Return tt else Raise invalid_initial_state.
Proof.
  intros Hq Hw.
  assert (Hret : forall msg,
             fst (log msg (measured_state (fresh cfg w))) = Return tt).
  { intros msg. apply log_returns.
    rewrite (log_writable_ext (fresh cfg w));
      [exact Hw | reflexivity | reflexivity]. }
  rewrite (construct_quiet cfg w Hq).
  destruct (nan_lt (np_abs (MeasuredMagneticField.field (measured w))) 10).
  - unfold bind.
    specialize (Hret (Str "--- Initializing. Magnetic field is zero. ---")).
    destruct (log _ _) as [[[]|e] s1]; [reflexivity | discriminate Hret].
  - unfold bind.
    specialize (Hret (Str "Initial magnetic field is not zero.")).
    destruct (log _ _) as [[[]|e] s1]; [reflexivity | discriminate Hret].
Qed.

(** With a log file that cannot be written, construction on a quiet
    driver raises the file error of its log call. *)
Lemma construct_quiet_log_error (cfg : Config) (w : World) :
  quiet w 7 ->
  log_writable (fresh cfg w) = false ->
  fst (construct cfg w) = Raise FileNotFoundError \/
  fst (construct cfg w) = Raise PermissionError.
Proof.
  intros Hq Hw.
  assert (Hraise : forall msg,
             fst (log msg (measured_state (fresh cfg w)))
             = Raise FileNotFoundError \/
             fst (log msg (measured_state (fresh cfg w)))
             = Raise PermissionError).
  { intros msg. apply log_raises.
    rewrite (log_writable_ext (fresh cfg w));
      [exact Hw | reflexivity | reflexivity]. }
  rewrite (construct_quiet cfg w Hq).
  destruct (nan_lt (np_abs (MeasuredMagneticField.field (measured w))) 10).
  - unfold bind.
    specialize (Hraise (Str "--- Initializing. Magnetic field is zero. ---")).
    destruct (log _ _) as [[[]|e] s1]; cbn [fst] in *;
      [destruct Hraise; discriminate | exact Hraise].
  - unfold bind.
    specialize (Hraise (Str "Initial magnetic field is not zero.")).
    destruct (log _ _) as [[[]|e] s1]; cbn [fst] in *;
      [destruct Hraise; discriminate | exact Hraise].
Qed.

(** C1, as the code has it.  On a driver whose calls succeed,
    construction makes the driver calls of one measured-field read and
    no other, so no hardware write.  With a log file that can be
    written: when the measured field is below 10 Oe in absolute value
    construction returns and [_output_field] is the record of field 0
    and voltage 0 stamped with the time read last; when it is 10 Oe or
    more, and also when it is nan because no samples were read,
    construction logs the message and raises the invalid-initial-state
    error, with [_output_field] still [None].  With a log file that
    cannot be written construction raises the file error of the log
    call instead, whatever the field, and [_output_field] is [None]. *)
Theorem construction_field_check (cfg : Config) (w : World) :
  quiet w 7 ->
  let f := MeasuredMagneticField.field (measured w) in
  let r := fst (construct cfg w) in
  let st' := snd (construct cfg w) in
  history (world st')
  = (history w ++ read_session (init cfg) (length (daq_calls w)))%list /\
  written_ramps (history (world st')) = written_ramps (history w) /\
  (forall x, f = Some x -> Qabs x < 10 ->
   log_writable (fresh cfg w) = true ->
   r = Return tt /\
   _output_field (obj st')
   = Some (MagnetOutput.make (clock w (3 + ticks w)) 0 0)) /\
  (forall x, f = Some x -> 10 <= Qabs x ->
   log_writable (fresh cfg w) = true ->
   r = Raise invalid_initial_state /\
   _output_field (obj st') = None /\
   _log (obj st') !! clock w (1 + ticks w)
   = Some (Str "Initial magnetic field is not zero.")) /\
  (f = None ->
   log_writable (fresh cfg w) = true ->
   r = Raise invalid_initial_state /\
   _output_field (obj st') = None /\
   _log (obj st') !! clock w (1 + ticks w)
   = Some (Str "Initial magnetic field is not zero.")) /\
  (log_writable (fresh cfg w) = false ->
   (r = Raise FileNotFoundError \/ r = Raise PermissionError) /\
   _output_field (obj st') = None).
Proof.
  intros Hq f r st'.
  destruct (construct_quiet_effect cfg w Hq) as (_ & _ & Hhist & Hlow & Hhigh).
  fold f r st' in Hhist, Hlow, Hhigh.
  assert (Hrefuse : nan_lt (np_abs f) 10 = false ->
            log_writable (fresh cfg w) = true ->
            r = Raise invalid_initial_state /\
            _output_field (obj st') = None /\
            _log (obj st') !! clock w (1 + ticks w)
            = Some (Str "Initial magnetic field is not zero.")).
  { intros Hb Hw. destruct (Hhigh Hb) as (Hl & Ho & _).
    pose proof (construct_quiet_result cfg w Hq Hw) as Hr.
    fold f r in Hr. rewrite Hb in Hr.
    split; [exact Hr|]. split; [exact Ho|].
    rewrite Hl. apply lookup_insert_eq. }
  split; [exact Hhist|]. split.
  { rewrite Hhist, written_ramps_app, written_ramps_read_session.
    apply app_nil_r. }
  split; [|split; [|split; [|]]].
  - intros x Hf Hlt Hw. pose proof (construct_quiet_result cfg w Hq Hw) as Hr.
    fold f r in Hr.
    assert (Hb : nan_lt (np_abs f) 10 = true)
      by (rewrite Hf; apply nan_lt_abs_Some; exact Hlt).
    rewrite Hb in Hr. split; [exact Hr|].
    destruct (Hlow Hb) as [_ [(_ & Ho & _) | [[He | He] _]]];
      [exact Ho | congruence | congruence].
  - intros x Hf Hge. apply Hrefuse.
    rewrite Hf. apply nan_lt_abs_Some_false. exact Hge.
  - intros Hf. apply Hrefuse. rewrite Hf. reflexivity.
  - intros Hw. pose proof (construct_quiet_log_error cfg w Hq Hw) as Hr.
    fold r in Hr. split; [exact Hr|].
    destruct (nan_lt (np_abs f) 10) eqn:Hb.
    + destruct (Hlow eq_refl) as [_ [(He & _) | [_ Ho]]]; [|exact Ho].
      destruct Hr as [Hr | Hr]; congruence.
    + apply (Hhigh eq_refl).
Qed.

Lemma construction_field_check_witness :
  (fst (construct default_config (bench [0] (NoFile true))) = Return tt /\
   _output_field (obj (started default_config (bench [0] (NoFile true))))
   = Some (MagnetOutput.make 3%Z 0 0)) /\
  (fst (construct default_config (bench [1] (NoFile true)))
   = Raise invalid_initial_state /\
   _output_field (obj (started default_config (bench [1] (NoFile true))))
   = None) /\
  (fst (construct default_config (bench [] (NoFile true)))
   = Raise invalid_initial_state) /\
  (fst (construct default_config (bench [0] NoSuchDir))
   = Raise FileNotFoundError \/
   fst (construct default_config (bench [0] NoSuchDir))
   = Raise PermissionError).
Proof.
  split; [|split; [|split]].
  - assert (Hq : quiet (bench [0] (NoFile true)) 7) by (intros i _; reflexivity).
    destruct (construction_field_check default_config _ Hq)
      as (_ & _ & Hlow & _).
    apply (Hlow (V2H (0 / inject_Z 1))); [reflexivity | | reflexivity].
    vm_compute. reflexivity.
  - assert (Hq : quiet (bench [1] (NoFile true)) 7) by (intros i _; reflexivity).
    destruct (construction_field_check default_config _ Hq)
      as (_ & _ & _ & Hhigh & _).
    destruct (Hhigh (V2H ((1 + 0) / inject_Z 1))) as (Hr & Ho & _);
      [reflexivity | vm_compute; discriminate | reflexivity |].
    split; assumption.
  - assert (Hq : quiet (bench [] (NoFile true)) 7) by (intros i _; reflexivity).
    destruct (construction_field_check default_config _ Hq)
      as (_ & _ & _ & _ & Hnan & _).
    apply Hnan; reflexivity.
  - assert (Hq : quiet (bench [0] NoSuchDir) 7) by (intros i _; reflexivity).
    destruct (construction_field_check default_config _ Hq)
      as (_ & _ & _ & _ & _ & Hlog).
    apply Hlog. reflexivity.
Defined.

(** The claim fails when the log file cannot be written: the field of
    -0.05665 Oe, that is -1133/20000, is below 10 Oe, yet construction
    raises the [FileNotFoundError] of its log call and no output record
    is made. *)
Lemma construction_raises_log_error :
  let w := bench [0] NoSuchDir in
  option_map Qred (MeasuredMagneticField.field (measured w))
  = Some (-1133 # 20000) /\
  nan_lt (np_abs (MeasuredMagneticField.field (measured w))) 10 = true /\
  fst (construct default_config w) = Raise FileNotFoundError /\
  _output_field (obj (snd (construct default_config w))) = None.
Proof. vm_compute. repeat split; reflexivity. Qed.

(** C10, as the code has it.  A construction attempt whose driver calls
    succeed, also one that the field check or the log file ends with an
    error, makes exactly one hardware read, leaves the measurement in
    [_measured_field] and an entry in the in-memory log; when the field
    fails the 10 Oe check the attempt raises, having logged its
    message, and the object is no longer as [__init__] left it.  An
    attempt in which a driver call of the read raises ends with the
    driver error and leaves the object as [__init__] left it: no
    measurement, no log entry; when the raising call is one of the
    first three no read is made at all. *)
Theorem construction_always_measures (cfg : Config) (w : World) :
  let st' := snd (construct cfg w) in
  (quiet w 7 ->
   count_calls is_read (history (world st'))
   = S (count_calls is_read (history w)) /\
   _measured_field (obj st') = Some (measured w) /\
   (exists msg, _log (obj st') !! clock w (1 + ticks w) = Some msg) /\
   (nan_lt (np_abs (MeasuredMagneticField.field (measured w))) 10 = false ->
    (exists e, fst (construct cfg w) = Raise e) /\
    _log (obj st') !! clock w (1 + ticks w)
    = Some (Str "Initial magnetic field is not zero.") /\
    obj st' <> init cfg)) /\
  (forall j, (j <= 6)%nat -> first_failure w j ->
   fst (construct cfg w) = Raise DaqError /\
   obj st' = init cfg /\
   ((j <= 2)%nat ->
    count_calls is_read (history (world st'))
    = count_calls is_read (history w))).
Proof.
  intros st'. split.
  - intros Hq.
    destruct (construct_quiet_effect cfg w Hq)
      as (_ & Hm & Hhist & Hlow & Hhigh).
    fold st' in Hm, Hhist, Hlow, Hhigh.
    split; [|split; [exact Hm | split]].
    + rewrite Hhist, count_calls_app. cbn. lia.
    + destruct (nan_lt (np_abs (MeasuredMagneticField.field (measured w))) 10).
      * destruct (Hlow eq_refl) as [Hl _]. eexists. rewrite Hl.
        apply lookup_insert_eq.
      * destruct (Hhigh eq_refl) as [Hl _]. eexists. rewrite Hl.
        apply lookup_insert_eq.
    + intros Hb. destruct (Hhigh Hb) as (Hl & _ & Hr). repeat split.
      * destruct Hr as [Hr | [Hr | Hr]]; eexists; exact Hr.
      * rewrite Hl. apply lookup_insert_eq.
      * intros E. rewrite E in Hm. discriminate Hm.
  - intros j Hj Hfail.
    destruct (construct_on_failing_driver cfg w j Hj Hfail) as (Hr & Ho & _).
    fold st' in Ho. split; [exact Hr|]. split; [exact Ho|].
    intros Hj2.
    assert (E : construct cfg w
                = (Raise DaqError, snd (measured_field (fresh cfg w)))).
    { pose proof (measured_field_raises (fresh cfg w) j Hj Hfail) as Hm.
      unfold construct, __post_init__. unfold bind at 1. fold (fresh cfg w).
      destruct (measured_field (fresh cfg w)) as [[a|e] s1];
        cbn [fst snd] in *; [discriminate Hm|].
      injection Hm as ->. reflexivity. }
    subst st'. rewrite E. cbn [snd].
    destruct Hfail as [Hquiet Hraise].
    cbn [fresh world] in *.
    destruct w as [clk tk dr dd calls opn con fs].
    cbn [daq_raises daq_calls] in Hraise.
    assert (Hcases : (j = 0 \/ j = 1 \/ j = 2)%nat) by lia.
    unfold measured_field, history, count_calls, fresh.
    destruct Hcases as [-> | [-> | ->]]; cbn [Nat.add] in Hraise.
    + drive. cbn [fst snd world daq_calls rev].
      rewrite List.filter_app, length_app. cbn. lia.
    + calm Hquiet 1%nat. clear Hquiet. drive.
      cbn [fst snd world daq_calls rev].
      rewrite !List.filter_app, !length_app. cbn. lia.
    + calm Hquiet 2%nat. clear Hquiet. drive.
      cbn [fst snd world daq_calls rev].
      rewrite !List.filter_app, !length_app. cbn. lia.
Qed.

Lemma construction_always_measures_witness :
  (let w := bench [1] (NoFile true) in
   (exists e, fst (construct default_config w) = Raise e) /\
   count_calls is_read (history (world (started default_config w))) = 1%nat /\
   _measured_field (obj (started default_config w)) = Some (measured w) /\
   _log (obj (started default_config w)) !! 1%Z
   = Some (Str "Initial magnetic field is not zero.")) /\
  (let w := faulty_bench 0 [1] (NoFile true) in
   fst (construct default_config w) = Raise DaqError /\
   obj (snd (construct default_config w)) = init default_config).
Proof.
  split; intros w.
  - assert (Hq : quiet w 7) by (intros i _; reflexivity).
    destruct (proj1 (construction_always_measures default_config w) Hq)
      as (Hc & Hm & _ & Hfail).
    destruct Hfail as (He & Hl & _); [vm_compute; reflexivity|].
    repeat split; assumption.
  - destruct (proj2 (construction_always_measures default_config w) 0%nat)
      as (Hr & Ho & _); [lia | | split; assumption].
    split; [intros i Hi; lia | reflexivity].
Defined.

(** The claim fails on a driver that raises at once: the attempt makes
    no read, sets no measurement and logs nothing. *)
Lemma construction_without_read :
  let w := faulty_bench 0 [1] (NoFile true) in
  fst (construct default_config w) = Raise DaqError /\
  count_calls is_read (history (world (snd (construct default_config w))))
  = 0%nat /\
  _measured_field (obj (snd (construct default_config w))) = None /\
  _log (obj (snd (construct default_config w))) = ∅ /\
  files (world (snd (construct default_config w))) (LOG_PATH default_config)
  = NoFile true.
Proof. vm_compute. repeat split; reflexivity. Qed.

(** ** The start-up check in volts *)

(** X14: the start-up check in volts.  On a driver whose calls succeed
    and with a log file that can be written: when samples were read
    and their mean is within 0.038 V of zero construction returns;
    when their mean lies between 0.04 V and 10 V on either side of
    zero, and also when no samples were read, construction raises the
    invalid-initial-state error. *)
Theorem construction_hall_voltage_window (cfg : Config) (w : World) :
  quiet w 7 ->
  log_writable (fresh cfg w) = true ->
  (forall V, np_mean (next_samples w) = Some V ->
   (-0.038 <= V -> V <= 0.038 -> fst (construct cfg w) = Return tt) /\
   (0.04 <= V -> V <= 10 ->
    fst (construct cfg w) = Raise invalid_initial_state) /\
   (-10 <= V -> V <= -0.04 ->
    fst (construct cfg w) = Raise invalid_initial_state)) /\
  (next_samples w = [] ->
   fst (construct cfg w) = Raise invalid_initial_state).
Proof.
  intros Hq Hw. rewrite (construct_quiet_result cfg w Hq Hw).
  change (MeasuredMagneticField.field (measured w))
    with (option_map V2H (np_mean (next_samples w))).
  split.
  - intros V ->. cbn [option_map].
    split; [|split].
    + intros Hlo Hhi. destruct (V2H_near_zero V Hlo Hhi) as [H1 H2].
      assert (Hlt : Qabs (V2H V) < 10)
        by (apply Qabs_Qlt_condition; split; assumption).
      apply nan_lt_abs_Some in Hlt. rewrite Hlt. reflexivity.
    + intros Hlo Hhi. pose proof (V2H_positive_range V Hlo Hhi) as H.
      assert (Hge : 10 <= Qabs (V2H V))
        by (eapply Qle_trans; [exact H | apply Qle_Qabs]).
      apply nan_lt_abs_Some_false in Hge. rewrite Hge. reflexivity.
    + intros Hlo Hhi. pose proof (V2H_negative_range V Hlo Hhi) as H.
      assert (Hge : 10 <= Qabs (V2H V)).
      { rewrite <- Qabs_opp. eapply Qle_trans; [|apply Qle_Qabs]. lra. }
      apply nan_lt_abs_Some_false in Hge. rewrite Hge. reflexivity.
  - intros ->. reflexivity.
Qed.

Lemma construction_hall_voltage_window_witness :
  fst (construct default_config (bench [0.02; 0.03] (NoFile true)))
  = Return tt /\
  fst (construct default_config (bench [0.05; 0.07] (NoFile true)))
  = Raise invalid_initial_state /\
  fst (construct default_config (bench [-2; -3] (NoFile true)))
  = Raise invalid_initial_state /\
  fst (construct default_config (bench [] (NoFile true)))
  = Raise invalid_initial_state.
Proof.
  split; [|split; [|split]].
  - assert (Hq : quiet (bench [0.02; 0.03] (NoFile true)) 7)
      by (intros i _; reflexivity).
    destruct (construction_hall_voltage_window default_config _ Hq eq_refl)
      as [Hwin _].
    apply (proj1 (Hwin _ eq_refl)); vm_compute; discriminate.
  - assert (Hq : quiet (bench [0.05; 0.07] (NoFile true)) 7)
      by (intros i _; reflexivity).
    destruct (construction_hall_voltage_window default_config _ Hq eq_refl)
      as [Hwin _].
    apply (proj1 (proj2 (Hwin _ eq_refl))); vm_compute; discriminate.
  - assert (Hq : quiet (bench [-2; -3] (NoFile true)) 7)
      by (intros i _; reflexivity).
    destruct (construction_hall_voltage_window default_config _ Hq eq_refl)
      as [Hwin _].
    apply (proj2 (proj2 (Hwin _ eq_refl))); vm_compute; discriminate.
  - assert (Hq : quiet (bench [] (NoFile true)) 7)
      by (intros i _; reflexivity).
    destruct (construction_hall_voltage_window default_config _ Hq eq_refl)
      as [_ Hnan].
    apply Hnan. reflexivity.
Defined.

(** ** The log of a construction *)

(** X15: on a driver whose calls succeed, a construction attempt
    leaves exactly one entry in the in-memory log, keyed by the second
    reading of the clock (the first stamps the measurement): the
    initialising message when the measured field is below 10 Oe in
    absolute value, the not-zero message when it is 10 Oe or more and
    when it is nan because no samples were read; this holds whether or
    not the log file can be written.  An attempt that returns has read
    the clock four times. *)
Theorem construction_logs_once (cfg : Config) (w : World) :
  quiet w 7 ->
  let f := MeasuredMagneticField.field (measured w) in
  let st' := snd (construct cfg w) in
  (forall x, f = Some x -> Qabs x < 10 ->
   _log (obj st')
   = {[clock w (1 + ticks w)
       := Str "--- Initializing. Magnetic field is zero. ---"]}) /\
  (forall x, f = Some x -> 10 <= Qabs x ->
   _log (obj st')
   = {[clock w (1 + ticks w) := Str "Initial magnetic field is not zero."]}) /\
  (f = None ->
   _log (obj st')
   = {[clock w (1 + ticks w) := Str "Initial magnetic field is not zero."]}) /\
  size (_log (obj st')) = 1%nat /\
  (fst (construct cfg w) = Return tt -> ticks (world st') = (4 + ticks w)%nat).
Proof.
  intros Hq f st'.
  destruct (construct_quiet_effect cfg w Hq) as (_ & _ & _ & Hlow & Hhigh).
  fold f st' in Hlow, Hhigh.
  split; [|split; [|split; [|split]]].
  - intros x Hf Hlt.
    assert (Hb : nan_lt (np_abs f) 10 = true)
      by (rewrite Hf; apply nan_lt_abs_Some; exact Hlt).
    destruct (Hlow Hb) as [Hl _]. rewrite Hl. apply insert_empty.
  - intros x Hf Hge.
    assert (Hb : nan_lt (np_abs f) 10 = false)
      by (rewrite Hf; apply nan_lt_abs_Some_false; exact Hge).
    destruct (Hhigh Hb) as [Hl _]. rewrite Hl. apply insert_empty.
  - intros Hf.
    assert (Hb : nan_lt (np_abs f) 10 = false) by (rewrite Hf; reflexivity).
    destruct (Hhigh Hb) as [Hl _]. rewrite Hl. apply insert_empty.
  - destruct (nan_lt (np_abs f) 10).
    + destruct (Hlow eq_refl) as [Hl _]. rewrite Hl, insert_empty.
      apply map_size_singleton.
    + destruct (Hhigh eq_refl) as [Hl _]. rewrite Hl, insert_empty.
      apply map_size_singleton.
  - intros Hr. destruct (nan_lt (np_abs f) 10).
    + destruct (Hlow eq_refl) as [_ [(_ & _ & Ht) | [[He | He] _]]];
        [exact Ht | congruence | congruence].
    + destruct (Hhigh eq_refl) as (_ & _ & [He | [He | He]]); congruence.
Qed.

Lemma construction_logs_once_witness :
  (let w := bench [1] NoSuchDir in
   fst (construct default_config w) = Raise FileNotFoundError /\
   _log (obj (snd (construct default_config w)))
   = {[1%Z := Str "Initial magnetic field is not zero."]}) /\
  (let w := bench [] (NoFile true) in
   _log (obj (snd (construct default_config w)))
   = {[1%Z := Str "Initial magnetic field is not zero."]}).
Proof.
  split; intros w.
  - assert (Hq : quiet w 7) by (intros i _; reflexivity).
    destruct (construction_logs_once default_config w Hq) as (_ & Hhigh & _).
    split; [vm_compute; reflexivity|].
    apply (Hhigh (V2H ((1 + 0) / inject_Z 1))); [reflexivity|].
    vm_compute. discriminate.
  - assert (Hq : quiet w 7) by (intros i _; reflexivity).
    destruct (construction_logs_once default_config w Hq)
      as (_ & _ & Hnan & _).
    apply Hnan. reflexivity.
Defined.
